(** * Builder-mediated commit protocol of the Context Protocol Python SDK

    A shallow embedding of [context_protocol_sdk/types.py],
    [context_protocol_sdk/node_type_registry.py] and
    [context_protocol_sdk/graph_node.py], followed by the properties of the
    commit sequences of [NodeBuilder] and [EdgeBuilder].

    Python coroutines are run to completion one after the other, so an
    [await] is a sequencing point: every method is a computation in a monad
    that threads the client session, collects what was printed, records the
    outgoing calls in the order they are made, and either returns a value or
    raises. *)

From Stdlib Require Import List String Bool ZArith Lia.
Import ListNotations.
Open Scope string_scope.

Set Implicit Arguments.

(** ** types.py *)

Inductive PropertyType :=
| PT_INVALID | PT_STRING | PT_NUMBER | PT_BOOLEAN | PT_ADDRESS | PT_BYTES.

Inductive EdgeStatus :=
| INVALID | PENDING | ACCEPTED | REJECTED.

(** [Enum] values: [INVALID = 0], the others numbered by [auto()]. *)
Definition EdgeStatus_value (s : EdgeStatus) : Z :=
  match s with
  | INVALID => 0
  | PENDING => 1
  | ACCEPTED => 2
  | REJECTED => 3
  end.

(** The Python values that cross the interfaces modelled here. *)
Inductive PyVal :=
| VNone
| VStr (s : string)
| VInt (z : Z)
| VBool (b : bool)
| VStatus (s : EdgeStatus).

Record NodeProperty := mkNodeProperty {
  key : string;
  value : PyVal;
  type : PropertyType;
  property_id : string
}.

(** Assignment [prop.property_id = pid]. *)
Definition set_property_id (p : NodeProperty) (pid : string) : NodeProperty :=
  {| key := key p; value := value p; type := type p; property_id := pid |}.

(** ** Exceptions and outcomes *)

Inductive Exn :=
| ValueError (msg : string)
| AttributeError (msg : string)
| IndexError
| CallError (msg : string).

Inductive Outcome (A : Type) :=
| Ok (a : A)
| Raise (e : Exn).
Arguments Ok {A} a.
Arguments Raise {A} e.

Definition is_ok {A} (o : Outcome A) : bool :=
  match o with Ok _ => true | Raise _ => false end.

(** ** node_type_registry.py

    The bound registry contract is reached through [.call()]; what the chain
    answers is outside the program, so the contract method is a field of the
    handle.  A call either returns the decoded string or raises. *)

Record NodeTypeRegistry := mkNodeTypeRegistry {
  reg_debug : bool;
  reg_address : string;
  reg_contract_propertyId : string -> string -> Outcome string
}.

(** ** The client session (fields of [GraphNode])

    The wallet and the bound contract are objects of [web3]; only their
    presence matters to the code below, so each is a handle carrying the
    address it was made from.  An object is truthy, [None] is not. *)

Record Account := mkAccount { account_address : string }.
Record Contract := mkContract { contract_address : string }.

Record GraphNode := mkGraphNode {
  debug : bool;
  account : option Account;
  contract : option Contract;
  node_type_registry : option NodeTypeRegistry;
  node_id : string;
  node_type_id : string;
  graph_node_name : string
}.

(** The session fields as [__init__] leaves them (lines 162-164), for given
    bindings of the wallet, the contract and the registry. *)
Definition new_GraphNode (dbg : bool) (acct : option Account)
    (contr : option Contract) (reg : option NodeTypeRegistry) : GraphNode :=
  {| debug := dbg; account := acct; contract := contr;
     node_type_registry := reg;
     node_id := ""; node_type_id := ""; graph_node_name := "" |}.

(** ** Outgoing calls

    Every low-level operation of [GraphNode] is, in the source, a pair of
    precondition checks followed by the place where the contract method is
    to be invoked.  A [Call] is recorded when control reaches that place,
    with the arguments the operation was given.  [CallPropertyId] is the
    registry read issued by [NodeTypeRegistry.property_id]. *)

Inductive Call :=
| CallAddNode (name : string)
| CallPropertyId (ntid k : string)
| CallAddProperties (nid : string) (props : list NodeProperty)
| CallAddDocument (nid url : string)
| CallRemoveDocument (url : string)
| CallAddEdge (edge_name to_addr descriptor : string)
| CallSetEdgeProperties (edge_id edge_name : string) (props : list NodeProperty)
| CallAnswerEdge (to_addr edge_id : string) (st : EdgeStatus)
| CallGetEdge (edge_name to_addr descriptor : string).

Definition is_mutating (c : Call) : bool :=
  match c with
  | CallPropertyId _ _ | CallGetEdge _ _ _ => false
  | _ => true
  end.

Definition is_add_properties (c : Call) : bool :=
  match c with CallAddProperties _ _ => true | _ => false end.

Definition is_set_edge_properties (c : Call) : bool :=
  match c with CallSetEdgeProperties _ _ _ => true | _ => false end.

Definition is_add_document (c : Call) : bool :=
  match c with CallAddDocument _ _ => true | _ => false end.

Definition is_add_node (c : Call) : bool :=
  match c with CallAddNode _ => true | _ => false end.

(** ** The monad *)

Record World := mkWorld {
  client : GraphNode;
  stdout : list string
}.

Record Run (A : Type) := mkRun {
  outcome : Outcome A;
  final : World;
  calls : list Call
}.

Definition M (A : Type) : Type := World -> Run A.

Definition ret {A} (a : A) : M A :=
  fun w => mkRun (Ok a) w [].

Definition raise {A} (e : Exn) : M A :=
  fun w => mkRun (Raise e) w [].

Definition bind {A B} (m : M A) (f : A -> M B) : M B :=
  fun w =>
    let r := m w in
    match outcome r with
    | Ok a =>
        let r' := f a (final r) in
        mkRun (outcome r') (final r') (calls r ++ calls r')
    | Raise e => mkRun (Raise e) (final r) (calls r)
    end.

Notation "x <- m ;; k" := (bind m (fun x => k))
  (at level 61, m at next level, right associativity).
Notation "m ;;; k" := (bind m (fun _ => k))
  (at level 61, right associativity).

Definition get_client : M GraphNode :=
  fun w => mkRun (Ok (client w)) w [].

Definition emit (c : Call) : M unit :=
  fun w => mkRun (Ok tt) w [c].

Definition print (line : string) : M unit :=
  fun w => mkRun (Ok tt) (mkWorld (client w) (stdout w ++ [line])) [].

Definition lift {A} (o : Outcome A) : M A :=
  fun w => mkRun o w [].

(** [for x in xs: body x] *)
Fixpoint for_each {A} (xs : list A) (body : A -> M unit) : M unit :=
  match xs with
  | [] => ret tt
  | x :: rest => body x ;;; for_each rest body
  end.

(** Python truthiness of an [Optional[str]]: [None] and [''] are falsy. *)
Definition truthy (o : option string) : bool :=
  match o with
  | None => false
  | Some s => negb (String.eqb s "")
  end.

(** Truthiness of an optional object handle. *)
Definition bound {A} (o : option A) : bool :=
  match o with Some _ => true | None => false end.

(** Truthiness of a tuple or list. *)
Definition nonempty {A} (l : list A) : bool :=
  match l with [] => false | _ :: _ => true end.

(** ** graph_node.py: [GraphNode] *)

Definition _check_wallet : M unit :=
  g <- get_client ;;
  if bound (account g) then ret tt
  else raise (ValueError "Wallet not initialized").

Definition _check_contract : M unit :=
  g <- get_client ;;
  if bound (contract g) then ret tt
  else raise (ValueError "Contract not initialized").

Definition _check_registry : M unit :=
  g <- get_client ;;
  if bound (node_type_registry g) then ret tt
  else raise (ValueError "Registry not initialized").

(** The dictionary returned by [add_node]. *)
Record AddNodeResult := mkAddNodeResult {
  res_node_id : string;
  res_properties : list PyVal
}.

Definition add_node (name : string) : M AddNodeResult :=
  _check_contract ;;;
  _check_registry ;;;
  emit (CallAddNode name) ;;;
  ret {| res_node_id := "generated_node_id"; res_properties := [] |}.

Definition add_edge (edge_name to_node_address descriptor : string) : M string :=
  _check_contract ;;;
  _check_registry ;;;
  emit (CallAddEdge edge_name to_node_address descriptor) ;;;
  ret "edge_id".

Definition set_edge_properties (edge_id edge_name : string)
    (props : list NodeProperty) : M unit :=
  _check_contract ;;;
  emit (CallSetEdgeProperties edge_id edge_name props).

Definition add_properties (nid : string) (props : list NodeProperty) : M unit :=
  _check_contract ;;;
  emit (CallAddProperties nid props).

Definition add_document (nid url : string) : M string :=
  _check_contract ;;;
  emit (CallAddDocument nid url) ;;;
  ret "document_id".

Definition remove_document (url : string) : M unit :=
  _check_contract ;;;
  emit (CallRemoveDocument url).

Definition answer_edge (to_node_address edge_id : string) (st : EdgeStatus)
    : M unit :=
  _check_contract ;;;
  emit (CallAnswerEdge to_node_address edge_id st).

(** ** node_type_registry.py: [NodeTypeRegistry.property_id] *)

Definition registry_property_id (reg : NodeTypeRegistry)
    (ntid property_key : string) : M string :=
  emit (CallPropertyId ntid property_key) ;;;
  lift (reg_contract_propertyId reg ntid property_key).

(** ** graph_node.py: [NodeBuilder] *)

Module NodeBuilder.

Record t := mk {
  graph_node_name : string;
  properties : list NodeProperty;
  documents : list string
}.

Definition init (name : string) : t :=
  {| graph_node_name := name; properties := []; documents := [] |}.

Definition property (b : t) (k : string) (v : PyVal) : t :=
  {| graph_node_name := graph_node_name b;
     properties := properties b ++ [mkNodeProperty k v PT_INVALID ""];
     documents := documents b |}.

Definition document (b : t) (url : string) : t :=
  {| graph_node_name := graph_node_name b;
     properties := properties b;
     documents := documents b ++ [url] |}.

(** One turn of the resolution loop: the attribute [property_id] is looked
    up on [parent.node_type_registry] (an [AttributeError] on [None]), then
    called with the session's [node_type_id] and the property's key. *)
Definition resolve (p : NodeProperty) : M NodeProperty :=
  g <- get_client ;;
  match node_type_registry g with
  | None => raise (AttributeError "property_id")
  | Some reg =>
      pid <- registry_property_id reg (node_type_id g) (key p) ;;
      ret (set_property_id p pid)
  end.

(** [for prop in self.properties: prop.property_id = ...]; the result is
    the builder's list after the assignments. *)
Fixpoint resolve_all (ps : list NodeProperty) : M (list NodeProperty) :=
  match ps with
  | [] => ret []
  | p :: rest =>
      p' <- resolve p ;;
      rest' <- resolve_all rest ;;
      ret (p' :: rest')
  end.

Definition save (b : t) : M PyVal :=
  g <- get_client ;;
  (if debug g
   then print ("Saving GraphNode with NodeType " ++ graph_node_name b)
   else ret tt) ;;;
  add_node (graph_node_name b) ;;;
  props <- resolve_all (properties b) ;;
  g1 <- get_client ;;
  add_properties (node_id g1) props ;;;
  for_each (documents b)
    (fun doc => g2 <- get_client ;; add_document (node_id g2) doc ;;; ret tt) ;;;
  g3 <- get_client ;;
  ret (VStr (node_id g3)).

End NodeBuilder.

(** ** graph_node.py: [EdgeBuilder] *)

Module EdgeBuilder.

Record t := mk {
  edge_name : string;
  descriptor : string;
  properties : list NodeProperty;
  documents : list string;
  from_node_address : option string;
  to_node_address : option string
}.

Definition init (name desc : string) : t :=
  {| edge_name := name; descriptor := desc;
     properties := []; documents := [];
     from_node_address := None; to_node_address := None |}.

Definition property (b : t) (k : string) (v : PyVal) : t :=
  {| edge_name := edge_name b; descriptor := descriptor b;
     properties := properties b ++ [mkNodeProperty k v PT_INVALID ""];
     documents := documents b;
     from_node_address := from_node_address b;
     to_node_address := to_node_address b |}.

Definition document (b : t) (url : string) : t :=
  {| edge_name := edge_name b; descriptor := descriptor b;
     properties := properties b;
     documents := documents b ++ [url];
     from_node_address := from_node_address b;
     to_node_address := to_node_address b |}.

Section Collaborators.

(** [eth_utils.to_checksum_address]: the checksummed form of an address,
    or an exception for input that is not one. *)
Variable to_checksum_address : string -> Outcome string.

(** [parent.get_edge]: [EdgeBuilder.status] calls it, and the [GraphNode]
    class of this package declares no method of that name.  It is taken
    as given: a computation that yields [None] or the record tuple
    [(from, to, descriptor, status, ...)]. *)
Variable get_edge : string -> string -> string -> M (option (list PyVal)).

Definition from_node (b : t) (node_address : string) : Outcome t :=
  match to_checksum_address node_address with
  | Ok a =>
      Ok {| edge_name := edge_name b; descriptor := descriptor b;
            properties := properties b; documents := documents b;
            from_node_address := Some a;
            to_node_address := to_node_address b |}
  | Raise e => Raise e
  end.

Definition to_node (b : t) (node_address : string) : Outcome t :=
  match to_checksum_address node_address with
  | Ok a =>
      Ok {| edge_name := edge_name b; descriptor := descriptor b;
            properties := properties b; documents := documents b;
            from_node_address := from_node_address b;
            to_node_address := Some a |}
  | Raise e => Raise e
  end.

(** The guard opening each commit operation; past it the target address
    is the string held by the builder. *)
Definition target (b : t) : M string :=
  match to_node_address b with
  | Some a =>
      if truthy (to_node_address b) then ret a
      else raise (ValueError "Target node address must be set")
  | None => raise (ValueError "Target node address must be set")
  end.

Definition save (b : t) : M PyVal :=
  to_addr <- target b ;;
  edge_id <- add_edge (edge_name b) to_addr (descriptor b) ;;
  (if nonempty (properties b)
   then set_edge_properties edge_id (edge_name b) (properties b)
   else ret tt) ;;;
  for_each (documents b)
    (fun doc => add_document edge_id doc ;;; ret tt) ;;;
  ret (VStr edge_id).

Definition accept (b : t) : M PyVal :=
  to_addr <- target b ;;
  edge_id <- add_edge (edge_name b) to_addr (descriptor b) ;;
  answer_edge to_addr edge_id ACCEPTED ;;;
  ret VNone.

(** [edge_data[3] if edge_data else EdgeStatus.INVALID] *)
Definition status_of (edge_data : option (list PyVal)) : M PyVal :=
  match edge_data with
  | None => ret (VStatus INVALID)
  | Some rec =>
      if nonempty rec then
        match nth_error rec 3 with
        | Some v => ret v
        | None => raise IndexError
        end
      else ret (VStatus INVALID)
  end.

Definition status (b : t) : M PyVal :=
  to_addr <- target b ;;
  edge_data <- get_edge (edge_name b) to_addr (descriptor b) ;;
  status_of edge_data.

End Collaborators.

End EdgeBuilder.

(** ** graph_node.py: [GraphNode.deploy]

    The body checks the wallet and returns a fixed string; the deployment
    it announces is a contract creation, not a method of a bound contract,
    and no [Call] stands for it. *)

Definition deploy (ntid : string) : M string :=
  _check_wallet ;;;
  ret "deployed_address".

(** ** node_type_registry.py: [get_edge_by_id] and [get_node_type]

    Both read one contract method and index the answer twice.  The method
    is taken as given: it answers a tuple or raises. *)

Record EdgeInfo := mkEdgeInfo { edge_id : PyVal; edge_exists : PyVal }.

Record NodeTypeInfo := mkNodeTypeInfo {
  info_node_type_id : PyVal;
  type_exists : PyVal
}.

Section RegistryReads.

Variable contract_getEdgeById : string -> Outcome (list PyVal).
Variable contract_getNodeType : string -> Outcome (list PyVal).

Definition get_edge_by_id (edge_type_id : string) : Outcome EdgeInfo :=
  match contract_getEdgeById edge_type_id with
  | Raise e => Raise e
  | Ok edge_data =>
      match nth_error edge_data 0 with
      | None => Raise IndexError
      | Some d0 =>
          match nth_error edge_data 1 with
          | None => Raise IndexError
          | Some d1 => Ok {| edge_id := d0; edge_exists := d1 |}
          end
      end
  end.

Definition get_node_type (ntid : string) : Outcome NodeTypeInfo :=
  match contract_getNodeType ntid with
  | Raise e => Raise e
  | Ok node_type_data =>
      match nth_error node_type_data 0 with
      | None => Raise IndexError
      | Some d0 =>
          match nth_error node_type_data 1 with
          | None => Raise IndexError
          | Some d1 => Ok {| info_node_type_id := d0; type_exists := d1 |}
          end
      end
  end.

End RegistryReads.

(** ** Construction: [GraphNode.__init__] and [NodeTypeRegistry.__init__]

    What the constructors reach outside the program: the process
    environment, the key-to-account derivation, the two ABI files, the
    address checksum and the chain behind a registry address. *)

Module GraphNodeConfig.

Record t := mk {
  connection : option string;
  private_key : option string;
  node_address : option string;
  node_type_registry_address : option string;
  debug : bool
}.

(** The dataclass defaults. *)
Definition default : t :=
  {| connection := Some "testnet"; private_key := None; node_address := None;
     node_type_registry_address := None; debug := false |}.

End GraphNodeConfig.

(** [load_json] is [open(path)] with [json.load]; [json_abi] is the lookup
    [contract_json['abi']]; [chain_propertyId] is the [propertyId] method of
    the contract at a checksummed address. *)
Record Platform := mkPlatform {
  getenv : string -> option string;
  account_from_key : string -> Outcome Account;
  load_json : string -> Outcome string;
  json_abi : string -> Outcome string;
  to_checksum_address : string -> Outcome string;
  chain_propertyId : string -> string -> string -> Outcome string
}.

(** [a or b] on optional strings. *)
Definition py_or (a b : option string) : option string :=
  if truthy a then a else b.

(** The string a truthy optional holds. *)
Definition the_string (o : option string) : string :=
  match o with Some s => s | None => "" end.

Definition obind {A B} (o : Outcome A) (f : A -> Outcome B) : Outcome B :=
  match o with Ok a => f a | Raise e => Raise e end.

(** A constructed registry client with the URL its own provider uses. *)
Record RegistryClient := mkRegistryClient {
  registry : NodeTypeRegistry;
  registry_provider_url : string
}.

Definition NodeTypeRegistry_init (pf : Platform)
    (node_type_registry_address : string) (dbg : bool) : Outcome RegistryClient :=
  let url := match getenv pf "RPC_URL" with
             | Some u => u
             | None => "http://localhost:8545"
             end in
  obind (load_json pf "path/to/NodeTypeRegistry.json") (fun contract_json =>
  obind (to_checksum_address pf node_type_registry_address) (fun addr =>
  obind (json_abi pf contract_json) (fun _ =>
  Ok {| registry :=
          {| reg_debug := dbg;
             reg_address := node_type_registry_address;
             reg_contract_propertyId := chain_propertyId pf addr |};
        registry_provider_url := url |}))).

(** The object [GraphNode.__init__] leaves: the session fields, the URL
    given to the provider, the [node_address] attribute (set only together
    with the contract) and the registry's own provider URL. *)
Record Constructed := mkConstructed {
  session : GraphNode;
  provider_url : string;
  node_address_attr : option string;
  registry_url : option string
}.

Definition GraphNode_init (pf : Platform) (config : GraphNodeConfig.t)
    : Outcome Constructed :=
  let dbg := GraphNodeConfig.debug config in
  let rpc_url := the_string (py_or (GraphNodeConfig.connection config)
                               (Some "testnet")) in
  let private_key := py_or (GraphNodeConfig.private_key config)
                       (getenv pf "PRIVATE_KEY") in
  obind (if truthy private_key
         then obind (account_from_key pf (the_string private_key))
                (fun a => Ok (Some a))
         else Ok None) (fun acct =>
  let node_address := py_or (GraphNodeConfig.node_address config)
                        (getenv pf "NODE_ADDRESS") in
  obind (if truthy node_address
         then
           obind (outcome (_check_wallet
                    (mkWorld (mkGraphNode dbg acct None None "" "" "") [])))
             (fun _ =>
           obind (load_json pf "path/to/GraphNode.json") (fun contract_json =>
           obind (to_checksum_address pf (the_string node_address)) (fun addr =>
           obind (json_abi pf contract_json) (fun _ =>
           Ok (Some (mkContract addr), node_address)))))
         else Ok (None, None)) (fun contr =>
  let registry_address :=
    py_or (GraphNodeConfig.node_type_registry_address config)
      (getenv pf "NODE_TYPE_REGISTRY_ADDRESS") in
  obind (if truthy registry_address
         then obind (NodeTypeRegistry_init pf (the_string registry_address) dbg)
                (fun rc => Ok (Some rc))
         else Ok None) (fun reg =>
  Ok {| session :=
          {| debug := dbg; account := acct; contract := fst contr;
             node_type_registry := option_map registry reg;
             node_id := ""; node_type_id := ""; graph_node_name := "" |};
        provider_url := rpc_url;
        node_address_attr := snd contr;
        registry_url := option_map registry_provider_url reg |}))).

(** ** Vocabulary of the statements *)

(** A run that was turned away: it raised and no call went out. *)
Definition rejected {A} (r : Run A) : Prop :=
  is_ok (outcome r) = false /\ calls r = [].

(** A client with both the contract and the registry bound. *)
Definition configured (g : GraphNode) : Prop :=
  bound (contract g) = true /\ bound (node_type_registry g) = true.

Definition unset_target : Exn := ValueError "Target node address must be set".

(** A run stopped by the target guard: the exception is the unset-target
    error, nothing was called and the world is untouched. *)
Definition fails_unset_target {A} (w : World) (r : Run A) : Prop :=
  outcome r = Raise unset_target /\ calls r = [] /\ final r = w.

(** The calls that submit properties or documents. *)
Definition submits_payload (c : Call) : bool :=
  is_add_properties c || is_set_edge_properties c || is_add_document c.

(** What the registry answers for a key in the session of [g]: the read
    [NodeBuilder.save] makes for a property with that key. *)
Definition lookup_property_id (g : GraphNode) (k : string) : Outcome string :=
  match node_type_registry g with
  | None => Raise (AttributeError "property_id")
  | Some reg => reg_contract_propertyId reg (node_type_id g) k
  end.

(** One registry read per property, in the order of the list. *)
Definition resolution_calls (g : GraphNode) (ps : list NodeProperty) : list Call :=
  map (fun p => CallPropertyId (node_type_id g) (key p)) ps.

(** [ps'] is [ps] with every [property_id] set to the registry's answer. *)
Definition resolved (g : GraphNode) (ps ps' : list NodeProperty) : Prop :=
  Forall2 (fun p p' => exists pid,
             lookup_property_id g (key p) = Ok pid /\
             p' = set_property_id p pid) ps ps'.

(** The world after the debug line of [NodeBuilder.save]. *)
Definition after_banner (b : NodeBuilder.t) (w : World) : World :=
  if debug (client w)
  then mkWorld (client w)
         (stdout w ++ ["Saving GraphNode with NodeType "
                       ++ NodeBuilder.graph_node_name b])
  else w.

(** ** Sample inputs *)

Definition sample_registry : NodeTypeRegistry :=
  mkNodeTypeRegistry false "0xRegistry" (fun _ k => Ok ("pid:" ++ k)).

Definition sample_client : GraphNode :=
  new_GraphNode false (Some (mkAccount "0xWallet")) (Some (mkContract "0xNode"))
    (Some sample_registry).

Definition sample_world : World := mkWorld sample_client [].

(** [edge("KNOWS", "friend").property("since", 2020).document("ipfs://doc")] *)
Definition sample_edge : EdgeBuilder.t :=
  EdgeBuilder.document
    (EdgeBuilder.property (EdgeBuilder.init "KNOWS" "friend") "since" (VInt 2020))
    "ipfs://doc".

(** The same builder after [to_node], with the checksummed target. *)
Definition sample_targeted_edge : EdgeBuilder.t :=
  {| EdgeBuilder.edge_name := EdgeBuilder.edge_name sample_edge;
     EdgeBuilder.descriptor := EdgeBuilder.descriptor sample_edge;
     EdgeBuilder.properties := EdgeBuilder.properties sample_edge;
     EdgeBuilder.documents := EdgeBuilder.documents sample_edge;
     EdgeBuilder.from_node_address := None;
     EdgeBuilder.to_node_address := Some "0xAbC" |}.

(** A chain on which the edge of any request is stored as accepted. *)
Definition sample_get_edge (n t d : string) : M (option (list PyVal)) :=
  emit (CallGetEdge n t d) ;;;
  ret (Some [VStr "0xNode"; VStr t; VStr d; VStatus ACCEPTED]).

(** [node("Person").property("name", "Ada").property("age", 36)
      .document("ipfs://cv").document("ipfs://photo")] *)
Definition sample_node : NodeBuilder.t :=
  NodeBuilder.document
    (NodeBuilder.document
       (NodeBuilder.property
          (NodeBuilder.property (NodeBuilder.init "Person") "name" (VStr "Ada"))
          "age" (VInt 36))
       "ipfs://cv")
    "ipfs://photo".

(** A registry that declares no property: every read answers the empty
    string. *)
Definition blank_registry : NodeTypeRegistry :=
  mkNodeTypeRegistry false "0xRegistry" (fun _ _ => Ok "").

Definition blank_world : World :=
  mkWorld (new_GraphNode false (Some (mkAccount "0xWallet"))
             (Some (mkContract "0xNode")) (Some blank_registry)) [].

(** A registry whose reads fail. *)
Definition failing_registry : NodeTypeRegistry :=
  mkNodeTypeRegistry false "0xRegistry" (fun _ _ => Raise (CallError "revert")).

Definition failing_world : World :=
  mkWorld (new_GraphNode false (Some (mkAccount "0xWallet"))
             (Some (mkContract "0xNode")) (Some failing_registry)) [].

(** A client bound to its contract, without a registry. *)
Definition registryless_world : World :=
  mkWorld (new_GraphNode false (Some (mkAccount "0xWallet"))
             (Some (mkContract "0xNode")) None) [].

(** ** The statements that do not hold as written *)

(** An empty answer of the registry for one of the builder's keys makes
    [save] fail without a batch call. *)
Definition empty_result_aborts (b : NodeBuilder.t) (w : World) : Prop :=
  forall p, In p (NodeBuilder.properties b) ->
    lookup_property_id (client w) (key p) = Ok "" ->
    is_ok (outcome (NodeBuilder.save b w)) = false /\
    existsb is_add_properties (calls (NodeBuilder.save b w)) = false.

(** An operation turns away every client that lacks the contract or the
    registry. *)
Definition checks_both_bindings {A} (op : M A) : Prop :=
  forall w,
    bound (contract (client w)) = false \/
    bound (node_type_registry (client w)) = false ->
    rejected (op w).

Definition every_mutation_checks_both : Prop :=
  (forall n, checks_both_bindings (add_node n)) /\
  (forall n a d, checks_both_bindings (add_edge n a d)) /\
  (forall e n ps, checks_both_bindings (set_edge_properties e n ps)) /\
  (forall nid ps, checks_both_bindings (add_properties nid ps)) /\
  (forall nid url, checks_both_bindings (add_document nid url)) /\
  (forall url, checks_both_bindings (remove_document url)) /\
  (forall a e st, checks_both_bindings (answer_edge a e st)).




(** ** Vocabulary of the further properties *)

(** The object [property(key, value)] appends. *)
Definition fresh_property (k : string) (v : PyVal) : NodeProperty :=
  mkNodeProperty k v PT_INVALID "".

(** A chain of fluent calls on a [NodeBuilder]. *)
Inductive NodeStep :=
| StepProperty (k : string) (v : PyVal)
| StepDocument (url : string).

Definition node_step (b : NodeBuilder.t) (s : NodeStep) : NodeBuilder.t :=
  match s with
  | StepProperty k v => NodeBuilder.property b k v
  | StepDocument url => NodeBuilder.document b url
  end.

Definition step_properties (ss : list NodeStep) : list NodeProperty :=
  flat_map (fun s => match s with
                     | StepProperty k v => [fresh_property k v]
                     | StepDocument _ => []
                     end) ss.

Definition step_documents (ss : list NodeStep) : list string :=
  flat_map (fun s => match s with
                     | StepProperty _ _ => []
                     | StepDocument url => [url]
                     end) ss.


(** The edge builders the fluent interface reaches. *)
Inductive EdgeFluent (cks : string -> Outcome string) : EdgeBuilder.t -> Prop :=
| fluent_init n d : EdgeFluent cks (EdgeBuilder.init n d)
| fluent_property b k v :
    EdgeFluent cks b -> EdgeFluent cks (EdgeBuilder.property b k v)
| fluent_document b url :
    EdgeFluent cks b -> EdgeFluent cks (EdgeBuilder.document b url)
| fluent_from_node b x b' :
    EdgeFluent cks b -> EdgeBuilder.from_node cks b x = Ok b' -> EdgeFluent cks b'
| fluent_to_node b x b' :
    EdgeFluent cks b -> EdgeBuilder.to_node cks b x = Ok b' -> EdgeFluent cks b'.

(** Properties as accumulated: no id, no declared type. *)
Definition unresolved (ps : list NodeProperty) : Prop :=
  Forall (fun p => property_id p = "" /\ type p = PT_INVALID) ps.

(** A call of an edge commit: no registry read, no node batch, and an edge
    batch only of unresolved properties. *)
Definition carries_unresolved (c : Call) : Prop :=
  match c with
  | CallSetEdgeProperties _ _ ps => unresolved ps
  | CallPropertyId _ _ | CallAddProperties _ _ => False
  | _ => True
  end.

(** The error of the first binding check that fails. *)
Definition binding_error (g : GraphNode) : Exn :=
  if bound (contract g)
  then ValueError "Registry not initialized"
  else ValueError "Contract not initialized".

(** The platform [pf] with another process environment. *)
Definition with_getenv (pf : Platform) (env : string -> option string) : Platform :=
  {| getenv := env;
     account_from_key := account_from_key pf;
     load_json := load_json pf;
     json_abi := json_abi pf;
     to_checksum_address := to_checksum_address pf;
     chain_propertyId := chain_propertyId pf |}.

(** A platform with an empty environment, on which every key, file and
    address is accepted. *)
Definition sample_platform : Platform :=
  {| getenv := fun _ => None;
     account_from_key := fun k => Ok (mkAccount k);
     load_json := fun path => Ok path;
     json_abi := fun _ => Ok "abi";
     to_checksum_address := fun a => Ok a;
     chain_propertyId := fun _ _ k => Ok ("pid:" ++ k) |}.

Definition sample_config : GraphNodeConfig.t :=
  {| GraphNodeConfig.connection := Some "mainnet";
     GraphNodeConfig.private_key := Some "0xKey";
     GraphNodeConfig.node_address := Some "0xNode";
     GraphNodeConfig.node_type_registry_address := Some "0xRegistry";
     GraphNodeConfig.debug := true |}.

(** A node address without any private key. *)
Definition keyless_config : GraphNodeConfig.t :=
  {| GraphNodeConfig.connection := Some "testnet";
     GraphNodeConfig.private_key := None;
     GraphNodeConfig.node_address := Some "0xNode";
     GraphNodeConfig.node_type_registry_address := None;
     GraphNodeConfig.debug := false |}.

(** A client without a wallet. *)
Definition walletless_world : World :=
  mkWorld (new_GraphNode false None None None) [].

(** [sample_node] with its second key unknown to the registry. *)
Definition picky_registry : NodeTypeRegistry :=
  mkNodeTypeRegistry false "0xRegistry"
    (fun _ k => if String.eqb k "age" then Raise (CallError "revert")
                else Ok ("pid:" ++ k)).

Definition picky_world : World :=
  mkWorld (new_GraphNode true (Some (mkAccount "0xWallet"))
             (Some (mkContract "0xNode")) (Some picky_registry)) [].

(** [sample_targeted_edge] after [from_node("0xFrom")]. *)
Definition sample_sourced_edge : EdgeBuilder.t :=
  {| EdgeBuilder.edge_name := EdgeBuilder.edge_name sample_edge;
     EdgeBuilder.descriptor := EdgeBuilder.descriptor sample_edge;
     EdgeBuilder.properties := EdgeBuilder.properties sample_edge;
     EdgeBuilder.documents := EdgeBuilder.documents sample_edge;
     EdgeBuilder.from_node_address := Some "0xFrom";
     EdgeBuilder.to_node_address := Some "0xAbC" |}.

(** [sample_edge] after [to_node("0xOld")]. *)
Definition sample_retargeted_edge : EdgeBuilder.t :=
  {| EdgeBuilder.edge_name := EdgeBuilder.edge_name sample_edge;
     EdgeBuilder.descriptor := EdgeBuilder.descriptor sample_edge;
     EdgeBuilder.properties := EdgeBuilder.properties sample_edge;
     EdgeBuilder.documents := EdgeBuilder.documents sample_edge;
     EdgeBuilder.from_node_address := None;
     EdgeBuilder.to_node_address := Some "0xOld" |}.

(** What [GraphNode(sample_config)] is on [sample_platform]. *)
Definition sample_constructed : Constructed :=
  {| session :=
       {| debug := true;
          account := Some (mkAccount "0xKey");
          contract := Some (mkContract "0xNode");
          node_type_registry :=
            Some {| reg_debug := true;
                    reg_address := "0xRegistry";
                    reg_contract_propertyId :=
                      chain_propertyId sample_platform "0xRegistry" |};
          node_id := ""; node_type_id := ""; graph_node_name := "" |};
     provider_url := "mainnet";
     node_address_attr := Some "0xNode";
     registry_url := Some "http://localhost:8545" |}.

(** What [GraphNode(GraphNodeConfig())] is on [sample_platform]. *)
Definition default_constructed : Constructed :=
  {| session := new_GraphNode false None None None;
     provider_url := "testnet";
     node_address_attr := None;
     registry_url := None |}.

(** * Properties *)

Unset Implicit Arguments.

(** ** Running the low-level operations *)

Lemma bind_run {A B} (m : M A) (f : A -> M B) w :
  bind m f w =
  match outcome (m w) with
  | Ok a => mkRun (outcome (f a (final (m w)))) (final (f a (final (m w))))
              (calls (m w) ++ calls (f a (final (m w))))
  | Raise e => mkRun (Raise e) (final (m w)) (calls (m w))
  end.
Proof. reflexivity. Qed.

Ltac step := rewrite bind_run; cbn [outcome final calls app].

Lemma check_contract_run w :
  _check_contract w =
  if bound (contract (client w)) then mkRun (Ok tt) w []
  else mkRun (Raise (ValueError "Contract not initialized")) w [].
Proof.
  unfold _check_contract, bind, get_client; simpl.
  destruct (bound (contract (client w))); reflexivity.
Qed.

Lemma check_registry_run w :
  _check_registry w =
  if bound (node_type_registry (client w)) then mkRun (Ok tt) w []
  else mkRun (Raise (ValueError "Registry not initialized")) w [].
Proof.
  unfold _check_registry, bind, get_client; simpl.
  destruct (bound (node_type_registry (client w))); reflexivity.
Qed.

Lemma add_node_run w name :
  configured (client w) ->
  add_node name w =
  mkRun (Ok (mkAddNodeResult "generated_node_id" [])) w [CallAddNode name].
Proof.
  intros [Hc Hr]. unfold add_node.
  step. rewrite check_contract_run, Hc; cbn [outcome final calls app].
  step. rewrite check_registry_run, Hr; reflexivity.
Qed.

Lemma add_edge_run w n a d :
  configured (client w) ->
  add_edge n a d w = mkRun (Ok "edge_id") w [CallAddEdge n a d].
Proof.
  intros [Hc Hr]. unfold add_edge.
  step. rewrite check_contract_run, Hc; cbn [outcome final calls app].
  step. rewrite check_registry_run, Hr; reflexivity.
Qed.

Lemma add_properties_run w nid ps :
  bound (contract (client w)) = true ->
  add_properties nid ps w = mkRun (Ok tt) w [CallAddProperties nid ps].
Proof.
  intros Hc. unfold add_properties, bind.
  rewrite check_contract_run, Hc; reflexivity.
Qed.

Lemma set_edge_properties_run w eid n ps :
  bound (contract (client w)) = true ->
  set_edge_properties eid n ps w =
  mkRun (Ok tt) w [CallSetEdgeProperties eid n ps].
Proof.
  intros Hc. unfold set_edge_properties, bind.
  rewrite check_contract_run, Hc; reflexivity.
Qed.

Lemma add_document_run w nid url :
  bound (contract (client w)) = true ->
  add_document nid url w = mkRun (Ok "document_id") w [CallAddDocument nid url].
Proof.
  intros Hc. unfold add_document, bind.
  rewrite check_contract_run, Hc; reflexivity.
Qed.

Lemma remove_document_run w url :
  bound (contract (client w)) = true ->
  remove_document url w = mkRun (Ok tt) w [CallRemoveDocument url].
Proof.
  intros Hc. unfold remove_document, bind.
  rewrite check_contract_run, Hc; reflexivity.
Qed.

Lemma answer_edge_run w a eid st :
  bound (contract (client w)) = true ->
  answer_edge a eid st w = mkRun (Ok tt) w [CallAnswerEdge a eid st].
Proof.
  intros Hc. unfold answer_edge, bind.
  rewrite check_contract_run, Hc; reflexivity.
Qed.

(** Without a contract every operation stops at its first check. *)
Lemma no_contract_rejects {A} (k : M A) w :
  bound (contract (client w)) = false ->
  rejected ((_check_contract ;;; k) w).
Proof.
  intros Hc. unfold bind. rewrite check_contract_run, Hc; simpl.
  split; reflexivity.
Qed.

(** Without a registry the two operations that check it stop there. *)
Lemma no_registry_rejects {A} (k : M A) w :
  bound (node_type_registry (client w)) = false ->
  rejected ((_check_contract ;;; _check_registry ;;; k) w).
Proof.
  intros Hr. step. rewrite check_contract_run.
  destruct (bound (contract (client w))); cbn [outcome final calls app];
    [|split; reflexivity].
  step. rewrite check_registry_run, Hr; split; reflexivity.
Qed.

Lemma run_eta {A} (r : Run A) : mkRun (outcome r) (final r) (calls r) = r.
Proof. destruct r; reflexivity. Qed.

(** Sequencing after a step whose run is known. *)
Lemma bind_ok {A B} {m : M A} (f : A -> M B) {w a w' cs}
    (H : m w = mkRun (Ok a) w' cs) :
  bind m f w = mkRun (outcome (f a w')) (final (f a w')) (cs ++ calls (f a w')).
Proof. rewrite bind_run, H. reflexivity. Qed.

Lemma bind_pure {A B} {m : M A} (f : A -> M B) {w a}
    (H : m w = mkRun (Ok a) w []) :
  bind m f w = f a w.
Proof. rewrite (bind_ok f H). apply run_eta. Qed.

Lemma bind_raise {A B} {m : M A} (f : A -> M B) {w e w' cs}
    (H : m w = mkRun (Raise e) w' cs) :
  bind m f w = mkRun (Raise e) w' cs.
Proof. rewrite bind_run, H. reflexivity. Qed.

Lemma bind_get_client {B} (f : GraphNode -> M B) w :
  bind get_client f w = f (client w) w.
Proof. apply bind_pure. reflexivity. Qed.

(** A loop whose every turn succeeds with one call and leaves the world as
    it found it makes those calls in the order of the list. *)
Lemma for_each_run {A} (xs : list A) (body : A -> M unit) (c : A -> Call) w :
  (forall x, body x w = mkRun (Ok tt) w [c x]) ->
  for_each xs body w = mkRun (Ok tt) w (map c xs).
Proof.
  intros Hbody. induction xs as [|x xs IH]; [reflexivity|].
  cbn [for_each map]. rewrite (bind_ok _ (Hbody x)), IH. reflexivity.
Qed.

(** The body of the document loop of [NodeBuilder.save]. *)
Lemma node_document_run w doc :
  bound (contract (client w)) = true ->
  (g2 <- get_client ;; add_document (node_id g2) doc ;;; ret tt) w
  = mkRun (Ok tt) w [CallAddDocument (node_id (client w)) doc].
Proof.
  intros Hc. rewrite bind_get_client.
  rewrite (bind_ok _ (add_document_run _ _ _ Hc)). reflexivity.
Qed.

(** The body of the document loop of [EdgeBuilder.save]. *)
Lemma edge_document_run w eid doc :
  bound (contract (client w)) = true ->
  (add_document eid doc ;;; ret tt) w = mkRun (Ok tt) w [CallAddDocument eid doc].
Proof.
  intros Hc. rewrite (bind_ok _ (add_document_run _ _ _ Hc)). reflexivity.
Qed.

(** ** The target guard of [EdgeBuilder] *)

Lemma target_set b a w :
  EdgeBuilder.to_node_address b = Some a -> a <> "" ->
  EdgeBuilder.target b w = mkRun (Ok a) w [].
Proof.
  intros Hb Ha. unfold EdgeBuilder.target. rewrite Hb. cbn [truthy].
  destruct (String.eqb_spec a ""); [contradiction|reflexivity].
Qed.

Lemma target_unset b w :
  EdgeBuilder.to_node_address b = None ->
  EdgeBuilder.target b w = mkRun (Raise unset_target) w [].
Proof. intros Hb. unfold EdgeBuilder.target. rewrite Hb. reflexivity. Qed.

(** Accumulating properties, documents or a source address leaves the
    target as it was; only [to_node] sets it. *)
Lemma property_keeps_target b k v :
  EdgeBuilder.to_node_address (EdgeBuilder.property b k v)
  = EdgeBuilder.to_node_address b.
Proof. reflexivity. Qed.

Lemma document_keeps_target b url :
  EdgeBuilder.to_node_address (EdgeBuilder.document b url)
  = EdgeBuilder.to_node_address b.
Proof. reflexivity. Qed.

Lemma from_node_keeps_target cks b addr b' :
  EdgeBuilder.from_node cks b addr = Ok b' ->
  EdgeBuilder.to_node_address b' = EdgeBuilder.to_node_address b.
Proof.
  unfold EdgeBuilder.from_node. destruct (cks addr); intros H; [|discriminate].
  injection H as <-. reflexivity.
Qed.

Lemma init_has_no_target name desc :
  EdgeBuilder.to_node_address (EdgeBuilder.init name desc) = None.
Proof. reflexivity. Qed.

(** ** Runs of [EdgeBuilder.accept] and [EdgeBuilder.save] on a configured
    client *)

Lemma accept_run b a w :
  EdgeBuilder.to_node_address b = Some a -> a <> "" ->
  configured (client w) ->
  EdgeBuilder.accept b w =
  mkRun (Ok VNone) w
    [CallAddEdge (EdgeBuilder.edge_name b) a (EdgeBuilder.descriptor b);
     CallAnswerEdge a "edge_id" ACCEPTED].
Proof.
  intros Hb Ha Hcfg. unfold EdgeBuilder.accept.
  rewrite (bind_pure _ (target_set b a w Hb Ha)).
  rewrite (bind_ok _ (add_edge_run w _ _ _ Hcfg)).
  rewrite (bind_ok _ (answer_edge_run w _ _ _ (proj1 Hcfg))).
  reflexivity.
Qed.

Lemma edge_save_run b a w :
  EdgeBuilder.to_node_address b = Some a -> a <> "" ->
  configured (client w) ->
  EdgeBuilder.save b w =
  mkRun (Ok (VStr "edge_id")) w
    (CallAddEdge (EdgeBuilder.edge_name b) a (EdgeBuilder.descriptor b)
     :: (if nonempty (EdgeBuilder.properties b)
         then [CallSetEdgeProperties "edge_id" (EdgeBuilder.edge_name b)
                 (EdgeBuilder.properties b)]
         else [])
     ++ map (CallAddDocument "edge_id") (EdgeBuilder.documents b)).
Proof.
  intros Hb Ha Hcfg. unfold EdgeBuilder.save.
  rewrite (bind_pure _ (target_set b a w Hb Ha)).
  rewrite (bind_ok _ (add_edge_run w _ _ _ Hcfg)).
  assert (Hdocs := for_each_run (EdgeBuilder.documents b)
                     (fun doc => add_document "edge_id" doc ;;; ret tt)
                     (CallAddDocument "edge_id") w
                     (fun doc => edge_document_run w "edge_id" doc (proj1 Hcfg))).
  destruct (nonempty (EdgeBuilder.properties b)).
  - rewrite (bind_ok _ (set_edge_properties_run w _ _ _ (proj1 Hcfg))).
    rewrite (bind_ok _ Hdocs). cbn. rewrite app_nil_r. reflexivity.
  - rewrite (bind_pure (m := ret tt) _ eq_refl).
    rewrite (bind_ok _ Hdocs). cbn. rewrite app_nil_r. reflexivity.
Qed.

Lemma add_edge_unconfigured n a d w :
  ~ configured (client w) -> rejected (add_edge n a d w).
Proof.
  intros Hn. unfold add_edge.
  destruct (bound (node_type_registry (client w))) eqn:Hr.
  - destruct (bound (contract (client w))) eqn:Hc.
    + exfalso. apply Hn. split; assumption.
    + apply no_contract_rejects. assumption.
  - apply no_registry_rejects. assumption.
Qed.

Lemma configured_dec g : {configured g} + {~ configured g}.
Proof.
  unfold configured.
  destruct (bound (contract g)), (bound (node_type_registry g));
    first [left; split; reflexivity | right; intros [? ?]; discriminate].
Qed.

(** ** C7 *)

(** C7. On an [EdgeBuilder] whose target was never set ([to_node] never
    called, so [to_node_address] is still [None]), each of [save], [accept]
    and [status] raises the unset-target [ValueError] and makes no call at
    all, neither a mutating one nor a read, before failing. *)
Theorem unset_target_blocks_commit get_edge b w :
  EdgeBuilder.to_node_address b = None ->
  fails_unset_target w (EdgeBuilder.save b w) /\
  fails_unset_target w (EdgeBuilder.accept b w) /\
  fails_unset_target w (EdgeBuilder.status get_edge b w).
Proof.
  intros Hb. pose proof (target_unset b w Hb) as Ht.
  unfold EdgeBuilder.save, EdgeBuilder.accept, EdgeBuilder.status.
  rewrite !(bind_raise _ Ht).
  repeat split.
Qed.

Lemma unset_target_blocks_commit_witness :
  fails_unset_target sample_world (EdgeBuilder.save sample_edge sample_world) /\
  fails_unset_target sample_world (EdgeBuilder.accept sample_edge sample_world) /\
  fails_unset_target sample_world
    (EdgeBuilder.status sample_get_edge sample_edge sample_world).
Proof.
  apply (unset_target_blocks_commit sample_get_edge sample_edge sample_world).
  reflexivity.
Defined.

(** ** C8 *)

(** C8. On an [EdgeBuilder] whose target is set, [accept] never submits
    properties or documents, whatever was accumulated; and on a configured
    client it succeeds with exactly two calls, in this order: the edge
    creation, then [answer_edge] with [ACCEPTED] for the edge just created. *)
Theorem accept_makes_two_calls b a w :
  EdgeBuilder.to_node_address b = Some a -> a <> "" ->
  existsb submits_payload (calls (EdgeBuilder.accept b w)) = false /\
  (configured (client w) ->
   is_ok (outcome (EdgeBuilder.accept b w)) = true /\
   calls (EdgeBuilder.accept b w) =
     [CallAddEdge (EdgeBuilder.edge_name b) a (EdgeBuilder.descriptor b);
      CallAnswerEdge a "edge_id" ACCEPTED] /\
   filter is_mutating (calls (EdgeBuilder.accept b w)) =
     calls (EdgeBuilder.accept b w)).
Proof.
  intros Hb Ha. split.
  - destruct (configured_dec (client w)) as [Hcfg|Hn].
    + rewrite (accept_run b a w Hb Ha Hcfg). reflexivity.
    + unfold EdgeBuilder.accept.
      rewrite (bind_pure _ (target_set b a w Hb Ha)).
      destruct (add_edge_unconfigured (EdgeBuilder.edge_name b) a
                  (EdgeBuilder.descriptor b) w Hn) as [Hout Hcalls].
      rewrite bind_run.
      destruct (outcome (add_edge _ _ _ w)); [discriminate|].
      cbn [calls]. rewrite Hcalls. reflexivity.
  - intros Hcfg. rewrite (accept_run b a w Hb Ha Hcfg). repeat split.
Qed.

Lemma accept_makes_two_calls_witness :
  existsb submits_payload
    (calls (EdgeBuilder.accept sample_targeted_edge sample_world)) = false /\
  calls (EdgeBuilder.accept sample_targeted_edge sample_world) =
    [CallAddEdge "KNOWS" "0xAbC" "friend";
     CallAnswerEdge "0xAbC" "edge_id" ACCEPTED].
Proof.
  destruct (accept_makes_two_calls sample_targeted_edge "0xAbC" sample_world
              eq_refl ltac:(discriminate)) as [Hnone Hcfg].
  split; [exact Hnone|].
  destruct (Hcfg (conj eq_refl eq_refl)) as [_ [Hcalls _]]. exact Hcalls.
Defined.

(** ** C9 *)

(** [status_of] neither calls nor touches the world; its outcome depends on
    the record alone. *)
Lemma status_of_outcome edge_data w :
  outcome (EdgeBuilder.status_of edge_data w) =
  match edge_data with
  | None => Ok (VStatus INVALID)
  | Some [] => Ok (VStatus INVALID)
  | Some rec =>
      match nth_error rec 3 with
      | Some v => Ok v
      | None => Raise IndexError
      end
  end.
Proof.
  destruct edge_data as [[|x rec]|]; try reflexivity.
  unfold EdgeBuilder.status_of. cbn [nonempty].
  destruct (nth_error (x :: rec) 3); reflexivity.
Qed.

Lemma status_outcome get_edge b a w r :
  EdgeBuilder.to_node_address b = Some a -> a <> "" ->
  outcome (get_edge (EdgeBuilder.edge_name b) a (EdgeBuilder.descriptor b) w)
    = Ok r ->
  outcome (EdgeBuilder.status get_edge b w) =
  outcome (EdgeBuilder.status_of r
             (final (get_edge (EdgeBuilder.edge_name b) a
                       (EdgeBuilder.descriptor b) w))).
Proof.
  intros Hb Ha Hget. unfold EdgeBuilder.status.
  rewrite (bind_pure _ (target_set b a w Hb Ha)).
  rewrite bind_run, Hget. reflexivity.
Qed.




(** ** C10 *)

Lemma accept_result b w v :
  outcome (EdgeBuilder.accept b w) = Ok v -> v = VNone.
Proof.
  unfold EdgeBuilder.accept. rewrite bind_run.
  destruct (outcome (EdgeBuilder.target b w)) as [to_addr|]; [|discriminate].
  cbn [outcome]. rewrite bind_run.
  destruct (outcome (add_edge _ _ _ _)) as [edge_id|]; [|discriminate].
  cbn [outcome]. rewrite bind_run.
  destruct (outcome (answer_edge _ _ _ _)); [|discriminate].
  cbn [outcome]. unfold ret; cbn [outcome]. intros H. injection H as <-.
  reflexivity.
Qed.

(** C10. Whenever [accept] returns, it returns [None]; on a configured
    client and with the target set it does return, its create-edge step
    having produced the id ["edge_id"], the id that [save] returns on the
    same builder and client. *)
Theorem accept_returns_None b w :
  (forall v, outcome (EdgeBuilder.accept b w) = Ok v -> v = VNone) /\
  (forall a,
     EdgeBuilder.to_node_address b = Some a -> a <> "" ->
     configured (client w) ->
     outcome (EdgeBuilder.accept b w) = Ok VNone /\
     outcome (add_edge (EdgeBuilder.edge_name b) a (EdgeBuilder.descriptor b) w)
       = Ok "edge_id" /\
     outcome (EdgeBuilder.save b w) = Ok (VStr "edge_id")).
Proof.
  split; [apply accept_result|].
  intros a Hb Ha Hcfg.
  rewrite (accept_run b a w Hb Ha Hcfg), (edge_save_run b a w Hb Ha Hcfg),
    (add_edge_run w _ _ _ Hcfg).
  repeat split.
Qed.

Lemma accept_returns_None_witness :
  outcome (EdgeBuilder.accept sample_targeted_edge sample_world) = Ok VNone /\
  outcome (EdgeBuilder.save sample_targeted_edge sample_world)
    = Ok (VStr "edge_id").
Proof.
  destruct (accept_returns_None sample_targeted_edge sample_world) as [_ H].
  destruct (H "0xAbC" eq_refl ltac:(discriminate) (conj eq_refl eq_refl))
    as [Hacc [_ Hsave]].
  split; assumption.
Defined.

(** ** Runs of [NodeBuilder.save] *)

Lemma add_node_unconfigured name w :
  ~ configured (client w) -> rejected (add_node name w).
Proof.
  intros Hn. unfold add_node.
  destruct (bound (node_type_registry (client w))) eqn:Hr.
  - destruct (bound (contract (client w))) eqn:Hc.
    + exfalso. apply Hn. split; assumption.
    + apply no_contract_rejects. assumption.
  - apply no_registry_rejects. assumption.
Qed.

Lemma banner_run b w :
  (if debug (client w)
   then print ("Saving GraphNode with NodeType " ++ NodeBuilder.graph_node_name b)
   else ret tt) w
  = mkRun (Ok tt) (after_banner b w) [].
Proof. unfold after_banner. destruct (debug (client w)); reflexivity. Qed.

Lemma client_after_banner b w : client (after_banner b w) = client w.
Proof. unfold after_banner. destruct (debug (client w)); reflexivity. Qed.

Lemma resolve_run p w :
  NodeBuilder.resolve p w =
  match node_type_registry (client w) with
  | None => mkRun (Raise (AttributeError "property_id")) w []
  | Some reg =>
      mkRun
        match reg_contract_propertyId reg (node_type_id (client w)) (key p) with
        | Ok pid => Ok (set_property_id p pid)
        | Raise e => Raise e
        end
        w [CallPropertyId (node_type_id (client w)) (key p)]
  end.
Proof.
  unfold NodeBuilder.resolve. rewrite bind_get_client.
  destruct (node_type_registry (client w)) as [reg|]; [|reflexivity].
  unfold registry_property_id. rewrite !bind_run. cbn.
  destruct (reg_contract_propertyId reg (node_type_id (client w)) (key p));
    reflexivity.
Qed.

(** One turn of the loop in terms of the session's lookup. *)
Lemma resolve_cases p w :
  (exists pid, lookup_property_id (client w) (key p) = Ok pid /\
     NodeBuilder.resolve p w =
     mkRun (Ok (set_property_id p pid)) w
       [CallPropertyId (node_type_id (client w)) (key p)]) \/
  (exists e cs, is_ok (lookup_property_id (client w) (key p)) = false /\
     NodeBuilder.resolve p w = mkRun (Raise e) w cs /\
     existsb is_mutating cs = false).
Proof.
  rewrite resolve_run. unfold lookup_property_id.
  destruct (node_type_registry (client w)) as [reg|].
  - destruct (reg_contract_propertyId reg (node_type_id (client w)) (key p))
      as [pid|e].
    + left. exists pid. split; reflexivity.
    + right. exists e, [CallPropertyId (node_type_id (client w)) (key p)].
      repeat split.
  - right. exists (AttributeError "property_id"), []. repeat split.
Qed.

(** The resolution loop: it leaves the world alone and makes only registry
    reads; when it completes, it has read once per property, in order, and
    its result is the resolved list; it completes exactly when every
    property resolves. *)
Lemma resolve_all_run ps w :
  final (NodeBuilder.resolve_all ps w) = w /\
  existsb is_mutating (calls (NodeBuilder.resolve_all ps w)) = false /\
  (forall ps', outcome (NodeBuilder.resolve_all ps w) = Ok ps' ->
     resolved (client w) ps ps' /\
     calls (NodeBuilder.resolve_all ps w) = resolution_calls (client w) ps) /\
  ((forall p, In p ps -> is_ok (lookup_property_id (client w) (key p)) = true)
   <-> is_ok (outcome (NodeBuilder.resolve_all ps w)) = true).
Proof.
  induction ps as [|p ps IH].
  - cbn. split; [reflexivity|]. split; [reflexivity|]. split.
    + intros ps' H. injection H as <-. split; [constructor|reflexivity].
    + split; [reflexivity|intros _ p []].
  - destruct IH as (IHw & IHc & IHok & IHiff).
    cbn [NodeBuilder.resolve_all].
    destruct (resolve_cases p w)
      as [(pid & Hpid & Hrun)|(e & cs & Hbad & Hrun & Hcs)].
    + rewrite (bind_ok _ Hrun). cbn [outcome final calls].
      rewrite bind_run.
      destruct (outcome (NodeBuilder.resolve_all ps w)) as [rest|e'] eqn:Hout;
        cbn [outcome final calls].
      * rewrite IHw. cbn [ret outcome final calls]. rewrite app_nil_r.
        split; [reflexivity|]. split; [exact IHc|]. split.
        -- intros ps' H. injection H as <-.
           destruct (IHok rest eq_refl) as [Hres Hcalls]. split.
           ++ constructor; [exists pid; split; auto|exact Hres].
           ++ cbn. rewrite Hcalls. reflexivity.
        -- split; [reflexivity|].
           intros _ q [<-|Hq]; [rewrite Hpid; reflexivity|].
           apply (proj2 IHiff); [reflexivity|exact Hq].
      * split; [exact IHw|]. split; [exact IHc|]. split.
        -- intros ps' H. discriminate.
        -- split; [|intros H; discriminate].
           intros Hall. apply (proj1 IHiff). intros q Hq. apply Hall.
           right. exact Hq.
    + rewrite (bind_raise _ Hrun). cbn [outcome final calls is_ok].
      split; [reflexivity|]. split; [exact Hcs|]. split.
      * intros ps' H. discriminate.
      * split; [|intros H; discriminate].
        intros Hall. rewrite (Hall p (or_introl eq_refl)) in Hbad. discriminate.
Qed.

(** [save] as far as its registry reads: the debug line, the node creation
    and the resolution loop, then the continuation on the loop's result. *)
Lemma node_save_prefix b w :
  configured (client w) ->
  let w1 := after_banner b w in
  let r := NodeBuilder.resolve_all (NodeBuilder.properties b) w1 in
  (forall e, outcome r = Raise e ->
     NodeBuilder.save b w =
     mkRun (Raise e) w1 (CallAddNode (NodeBuilder.graph_node_name b) :: calls r)) /\
  (forall props, outcome r = Ok props ->
     NodeBuilder.save b w =
     mkRun (Ok (VStr (node_id (client w)))) w1
       (CallAddNode (NodeBuilder.graph_node_name b)
        :: resolution_calls (client w) (NodeBuilder.properties b)
        ++ [CallAddProperties (node_id (client w)) props]
        ++ map (CallAddDocument (node_id (client w))) (NodeBuilder.documents b))).
Proof.
  intros Hcfg w1 r.
  assert (Hcl : client w1 = client w) by apply client_after_banner.
  assert (Hcfg1 : configured (client w1)) by (rewrite Hcl; exact Hcfg).
  destruct (resolve_all_run (NodeBuilder.properties b) w1)
    as (Hfinal & _ & Hok & _).
  fold r in Hfinal, Hok.
  assert (Hhead : NodeBuilder.save b w =
            let k := fun props : list NodeProperty =>
              g1 <- get_client ;;
              add_properties (node_id g1) props ;;;
              for_each (NodeBuilder.documents b)
                (fun doc => g2 <- get_client ;;
                            add_document (node_id g2) doc ;;; ret tt) ;;;
              g3 <- get_client ;;
              ret (VStr (node_id g3)) in
            match outcome r with
            | Ok props =>
                mkRun (outcome (k props w1)) (final (k props w1))
                  (CallAddNode (NodeBuilder.graph_node_name b)
                   :: calls r ++ calls (k props w1))
            | Raise e =>
                mkRun (Raise e) w1
                  (CallAddNode (NodeBuilder.graph_node_name b) :: calls r)
            end).
  { unfold NodeBuilder.save. rewrite bind_get_client.
    rewrite (bind_ok _ (banner_run b w)). fold w1.
    rewrite (bind_ok _ (add_node_run w1 _ Hcfg1)).
    rewrite bind_run. fold r. rewrite Hfinal.
    destruct (outcome r); cbn; rewrite ?app_nil_r; reflexivity. }
  split.
  - intros e He. rewrite Hhead, He. reflexivity.
  - intros props Hprops. rewrite Hhead, Hprops. cbv beta iota zeta.
    destruct (Hok props Hprops) as [_ Hcalls]. rewrite Hcalls, Hcl.
    rewrite bind_get_client.
    rewrite (bind_ok _ (add_properties_run w1 _ _ (proj1 Hcfg1))).
    rewrite (bind_ok _ (for_each_run (NodeBuilder.documents b) _
                          (fun doc => CallAddDocument (node_id (client w1)) doc) w1
                          (fun doc => node_document_run w1 doc (proj1 Hcfg1)))).
    rewrite bind_get_client. cbn. rewrite Hcl, app_nil_r. reflexivity.
Qed.

Lemma node_save_unconfigured b w :
  ~ configured (client w) -> rejected (NodeBuilder.save b w).
Proof.
  intros Hn. unfold NodeBuilder.save. rewrite bind_get_client.
  rewrite (bind_ok _ (banner_run b w)).
  assert (Hn1 : ~ configured (client (after_banner b w)))
    by (rewrite client_after_banner; exact Hn).
  destruct (add_node_unconfigured (NodeBuilder.graph_node_name b) _ Hn1)
    as [Hout Hcalls].
  rewrite bind_run.
  destruct (outcome (add_node _ _)); [discriminate|].
  cbn. rewrite Hcalls. split; reflexivity.
Qed.

Lemma resolve_all_at_banner b w :
  let r := NodeBuilder.resolve_all (NodeBuilder.properties b) (after_banner b w) in
  existsb is_mutating (calls r) = false /\
  (forall ps', outcome r = Ok ps' ->
     resolved (client w) (NodeBuilder.properties b) ps') /\
  ((forall p, In p (NodeBuilder.properties b) ->
      is_ok (lookup_property_id (client w) (key p)) = true)
   <-> is_ok (outcome r) = true).
Proof.
  intros r.
  destruct (resolve_all_run (NodeBuilder.properties b) (after_banner b w))
    as (_ & Hc & Hok & Hiff).
  rewrite client_after_banner in Hok, Hiff. fold r in Hc, Hok, Hiff.
  split; [exact Hc|]. split; [|exact Hiff].
  intros ps' H. apply (Hok ps' H).
Qed.

Lemma no_mutation_no_batch cs :
  existsb is_mutating cs = false -> existsb is_add_properties cs = false.
Proof.
  induction cs as [|c cs IH]; [reflexivity|]. cbn.
  intros H. apply orb_false_iff in H as [Hc Hcs].
  rewrite (IH Hcs). destruct c; try discriminate; reflexivity.
Qed.

Lemma resolved_member g ps ps' p pid :
  resolved g ps ps' -> In p ps -> lookup_property_id g (key p) = Ok pid ->
  In (set_property_id p pid) ps'.
Proof.
  induction 1 as [|q q' ps ps' (pid' & Hq & ->) _ IH]; intros Hin Hp; [destruct Hin|].
  destruct Hin as [->|Hin].
  - left. rewrite Hq in Hp. injection Hp as ->. reflexivity.
  - right. apply IH; assumption.
Qed.

(** ** C1 *)

(** C1. Whenever [NodeBuilder.save] succeeds, its calls are, in this order:
    the node creation; one registry read per accumulated property, in
    accumulation order; one batch [add_properties] carrying the resolved
    properties; one [add_document] per accumulated document, in accumulation
    order.  It does succeed on a configured client whose registry answers
    for every accumulated key. *)
Theorem save_call_order b w :
  (forall v, outcome (NodeBuilder.save b w) = Ok v ->
     exists props,
       resolved (client w) (NodeBuilder.properties b) props /\
       calls (NodeBuilder.save b w) =
         CallAddNode (NodeBuilder.graph_node_name b)
         :: resolution_calls (client w) (NodeBuilder.properties b)
         ++ [CallAddProperties (node_id (client w)) props]
         ++ map (CallAddDocument (node_id (client w))) (NodeBuilder.documents b)) /\
  (configured (client w) ->
   (forall p, In p (NodeBuilder.properties b) ->
      is_ok (lookup_property_id (client w) (key p)) = true) ->
   is_ok (outcome (NodeBuilder.save b w)) = true).
Proof.
  destruct (resolve_all_at_banner b w) as (_ & Hres & Hiff).
  split.
  - intros v Hv. destruct (configured_dec (client w)) as [Hcfg|Hn].
    + destruct (node_save_prefix b w Hcfg) as [Hraise Hok].
      destruct (outcome (NodeBuilder.resolve_all (NodeBuilder.properties b)
                           (after_banner b w))) as [props|e] eqn:Hout.
      * exists props. split; [apply Hres; reflexivity|].
        rewrite (Hok props eq_refl). reflexivity.
      * rewrite (Hraise e eq_refl) in Hv. discriminate.
    + destruct (node_save_unconfigured b w Hn) as [Hfail _].
      rewrite Hv in Hfail. discriminate.
  - intros Hcfg Hall. destruct (node_save_prefix b w Hcfg) as [_ Hok].
    apply (proj1 Hiff) in Hall.
    destruct (outcome (NodeBuilder.resolve_all (NodeBuilder.properties b)
                         (after_banner b w))) as [props|e]; [|discriminate].
    rewrite (Hok props eq_refl). reflexivity.
Qed.

Lemma save_call_order_witness :
  exists props,
    resolved sample_client (NodeBuilder.properties sample_node) props /\
    calls (NodeBuilder.save sample_node sample_world) =
      CallAddNode "Person"
      :: [CallPropertyId "" "name"; CallPropertyId "" "age"]
      ++ [CallAddProperties "" props]
      ++ [CallAddDocument "" "ipfs://cv"; CallAddDocument "" "ipfs://photo"].
Proof.
  exact (proj1 (save_call_order sample_node sample_world) (VStr "") eq_refl).
Defined.

(** ** C2 *)

Lemma empty_result_does_not_abort : ~ empty_result_aborts sample_node blank_world.
Proof.
  intros H.
  destruct (H (mkNodeProperty "name" (VStr "Ada") PT_INVALID "")
              (or_introl eq_refl) eq_refl) as [Hfail _].
  discriminate.
Qed.

(** C2, as the code has it.  If the registry read fails (raises) for any
    accumulated property, [save] fails and makes no batch properties call.
    An empty answer is not a failure: on a configured client whose reads all
    answer, [save] succeeds and the batch carries each property with the id
    the registry answered, the empty string included. *)
Theorem failed_resolution_aborts_save b w :
  (forall p, In p (NodeBuilder.properties b) ->
     is_ok (lookup_property_id (client w) (key p)) = false ->
     is_ok (outcome (NodeBuilder.save b w)) = false /\
     existsb is_add_properties (calls (NodeBuilder.save b w)) = false) /\
  (configured (client w) ->
   (forall p, In p (NodeBuilder.properties b) ->
      is_ok (lookup_property_id (client w) (key p)) = true) ->
   is_ok (outcome (NodeBuilder.save b w)) = true /\
   exists props,
     In (CallAddProperties (node_id (client w)) props)
        (calls (NodeBuilder.save b w)) /\
     forall p pid, In p (NodeBuilder.properties b) ->
       lookup_property_id (client w) (key p) = Ok pid ->
       In (set_property_id p pid) props).
Proof.
  destruct (resolve_all_at_banner b w) as (Hmut & Hres & Hiff).
  split.
  - intros p Hin Hbad. destruct (configured_dec (client w)) as [Hcfg|Hn].
    + destruct (node_save_prefix b w Hcfg) as [Hraise _].
      destruct (outcome (NodeBuilder.resolve_all (NodeBuilder.properties b)
                           (after_banner b w))) as [props|e] eqn:Hout.
      * assert (Hall := proj2 Hiff eq_refl p Hin).
        rewrite Hall in Hbad. discriminate.
      * rewrite (Hraise e eq_refl). cbn.
        split; [reflexivity|apply no_mutation_no_batch; exact Hmut].
    + destruct (node_save_unconfigured b w Hn) as [Hfail Hcalls].
      rewrite Hcalls. split; [exact Hfail|reflexivity].
  - intros Hcfg Hall. destruct (node_save_prefix b w Hcfg) as [_ Hok].
    apply (proj1 Hiff) in Hall.
    destruct (outcome (NodeBuilder.resolve_all (NodeBuilder.properties b)
                         (after_banner b w))) as [props|e]; [|discriminate].
    rewrite (Hok props eq_refl). split; [reflexivity|].
    exists props. split.
    + cbn [calls]. right. apply in_or_app. right. left. reflexivity.
    + intros p pid Hin Hp.
      exact (resolved_member _ _ _ p pid (Hres props eq_refl) Hin Hp).
Qed.

Lemma failed_resolution_aborts_save_witness :
  (is_ok (outcome (NodeBuilder.save sample_node failing_world)) = false /\
   existsb is_add_properties (calls (NodeBuilder.save sample_node failing_world))
     = false) /\
  is_ok (outcome (NodeBuilder.save sample_node blank_world)) = true.
Proof.
  split.
  - destruct (failed_resolution_aborts_save sample_node failing_world) as [H _].
    exact (H (mkNodeProperty "name" (VStr "Ada") PT_INVALID "")
             (or_introl eq_refl) eq_refl).
  - destruct (failed_resolution_aborts_save sample_node blank_world) as [_ H].
    destruct (H (conj eq_refl eq_refl)) as [Hok _]; [|exact Hok].
    intros p [<-|[<-|[]]]; reflexivity.
Defined.

(** ** C6 *)

(** C6, as the code runs.  On a configured client, [save] of a builder with
    no property and no document makes the node-creation call and then still
    makes the batch call, with the empty list; it makes no registry read and
    no document call. *)
Theorem empty_save_still_batches b w :
  configured (client w) ->
  NodeBuilder.properties b = [] -> NodeBuilder.documents b = [] ->
  outcome (NodeBuilder.save b w) = Ok (VStr (node_id (client w))) /\
  calls (NodeBuilder.save b w) =
    [CallAddNode (NodeBuilder.graph_node_name b);
     CallAddProperties (node_id (client w)) []].
Proof.
  intros Hcfg Hps Hds. destruct (node_save_prefix b w Hcfg) as [_ Hok].
  rewrite Hps in Hok. rewrite (Hok [] eq_refl), Hds. split; reflexivity.
Qed.

Lemma empty_save_still_batches_witness :
  calls (NodeBuilder.save (NodeBuilder.init "Person") sample_world) =
    [CallAddNode "Person"; CallAddProperties "" []].
Proof.
  exact (proj2 (empty_save_still_batches (NodeBuilder.init "Person") sample_world
                  (conj eq_refl eq_refl) eq_refl eq_refl)).
Defined.

(** ** C3 *)

Lemma some_mutations_skip_the_registry : ~ every_mutation_checks_both.
Proof.
  intros (_ & _ & _ & Hprops & _).
  destruct (Hprops "node" [] registryless_world (or_intror eq_refl)) as [Hfail _].
  discriminate.
Qed.

(** C3, as the code has it.  Without a bound contract each of the seven
    mutating operations fails before any call.  Without a bound registry
    [add_node] and [add_edge] fail before any call.  The other five check
    the contract only: with the contract bound they make their call and
    succeed, whether or not a registry is bound. *)
Theorem mutation_preconditions w :
  (bound (contract (client w)) = false ->
   (forall n, rejected (add_node n w)) /\
   (forall n a d, rejected (add_edge n a d w)) /\
   (forall e n ps, rejected (set_edge_properties e n ps w)) /\
   (forall nid ps, rejected (add_properties nid ps w)) /\
   (forall nid url, rejected (add_document nid url w)) /\
   (forall url, rejected (remove_document url w)) /\
   (forall a e st, rejected (answer_edge a e st w))) /\
  (bound (node_type_registry (client w)) = false ->
   (forall n, rejected (add_node n w)) /\
   (forall n a d, rejected (add_edge n a d w))) /\
  (bound (contract (client w)) = true ->
   (forall e n ps, set_edge_properties e n ps w
                   = mkRun (Ok tt) w [CallSetEdgeProperties e n ps]) /\
   (forall nid ps, add_properties nid ps w
                   = mkRun (Ok tt) w [CallAddProperties nid ps]) /\
   (forall nid url, add_document nid url w
                    = mkRun (Ok "document_id") w [CallAddDocument nid url]) /\
   (forall url, remove_document url w
                = mkRun (Ok tt) w [CallRemoveDocument url]) /\
   (forall a e st, answer_edge a e st w
                   = mkRun (Ok tt) w [CallAnswerEdge a e st])).
Proof.
  split; [|split].
  - intros Hc.
    repeat match goal with |- _ /\ _ => split end;
      intros; apply no_contract_rejects; exact Hc.
  - intros Hr. split; intros; apply no_registry_rejects; exact Hr.
  - intros Hc.
    repeat match goal with |- _ /\ _ => split end; intros.
    + apply set_edge_properties_run; exact Hc.
    + apply add_properties_run; exact Hc.
    + apply add_document_run; exact Hc.
    + apply remove_document_run; exact Hc.
    + apply answer_edge_run; exact Hc.
Qed.

Lemma mutation_preconditions_witness :
  rejected (add_node "Person" registryless_world) /\
  add_document "node" "ipfs://cv" registryless_world
  = mkRun (Ok "document_id") registryless_world
      [CallAddDocument "node" "ipfs://cv"].
Proof.
  destruct (mutation_preconditions registryless_world) as (_ & Hreg & Hcon).
  split.
  - exact (proj1 (Hreg eq_refl) "Person").
  - destruct (Hcon eq_refl) as (_ & _ & Hdoc & _). exact (Hdoc "node" "ipfs://cv").
Defined.

(** ** C4 *)

(** [add_node] never changes the world, whether it succeeds or not. *)
Lemma add_node_keeps_world name w : final (add_node name w) = w.
Proof.
  destruct (configured_dec (client w)) as [Hcfg|Hn].
  - rewrite (add_node_run w name Hcfg). reflexivity.
  - unfold add_node. rewrite bind_run, check_contract_run.
    destruct (bound (contract (client w))); [|reflexivity].
    cbn [outcome final calls]. rewrite bind_run, check_registry_run.
    destruct (bound (node_type_registry (client w))); reflexivity.
Qed.




(** ** C5 *)

(** C5, as the code runs.  On a configured client [add_node] returns a
    result naming the node ["generated_node_id"] and leaves the session's
    [node_id] and [node_type_id] as they were; a [save] whose properties all
    resolve then returns that unchanged [node_id], the empty string on a
    fresh client, and not the id of the node just created. *)
Theorem save_returns_session_node_id b w :
  configured (client w) ->
  (forall p, In p (NodeBuilder.properties b) ->
     is_ok (lookup_property_id (client w) (key p)) = true) ->
  outcome (add_node (NodeBuilder.graph_node_name b) w)
    = Ok (mkAddNodeResult "generated_node_id" []) /\
  client (final (add_node (NodeBuilder.graph_node_name b) w)) = client w /\
  outcome (NodeBuilder.save b w) = Ok (VStr (node_id (client w))) /\
  client (final (NodeBuilder.save b w)) = client w.
Proof.
  intros Hcfg Hall.
  split; [rewrite (add_node_run w _ Hcfg); reflexivity|].
  split; [rewrite add_node_keeps_world; reflexivity|].
  destruct (resolve_all_at_banner b w) as (_ & _ & Hiff).
  destruct (node_save_prefix b w Hcfg) as [_ Hok].
  apply (proj1 Hiff) in Hall.
  destruct (outcome (NodeBuilder.resolve_all (NodeBuilder.properties b)
                       (after_banner b w))) as [props|e]; [|discriminate].
  rewrite (Hok props eq_refl). cbn [outcome final].
  split; [reflexivity|apply client_after_banner].
Qed.

Lemma save_returns_session_node_id_witness :
  outcome (add_node "Person" sample_world)
    = Ok (mkAddNodeResult "generated_node_id" []) /\
  outcome (NodeBuilder.save sample_node sample_world) = Ok (VStr "").
Proof.
  destruct (save_returns_session_node_id sample_node sample_world
              (conj eq_refl eq_refl)) as (Hadd & _ & Hsave & _).
  - intros p [<-|[<-|[]]]; reflexivity.
  - split; [exact Hadd|exact Hsave].
Defined.

(** * Further properties *)

(** ** [EdgeBuilder]: the guard, the targets and what is submitted *)

Lemma target_falsy b w :
  truthy (EdgeBuilder.to_node_address b) = false ->
  EdgeBuilder.target b w = mkRun (Raise unset_target) w [].
Proof.
  intros H. unfold EdgeBuilder.target.
  destruct (EdgeBuilder.to_node_address b) as [a|]; [|reflexivity].
  rewrite H. reflexivity.
Qed.

Lemma truthy_target b :
  truthy (EdgeBuilder.to_node_address b) = true ->
  exists a, EdgeBuilder.to_node_address b = Some a /\ a <> "".
Proof.
  destruct (EdgeBuilder.to_node_address b) as [a|]; cbn; [|discriminate].
  intros H. exists a. split; [reflexivity|].
  intros ->. cbn in H. discriminate.
Qed.

(** X1. On a configured client and with the target set, [EdgeBuilder.save]
    succeeds with the edge id, leaves the session untouched and makes:
    the edge creation; one [set_edge_properties] with the accumulated list
    if and only if that list is not empty; one [add_document] per document,
    in order, each under the new edge id. *)
Theorem edge_save_call_order b a w :
  EdgeBuilder.to_node_address b = Some a -> a <> "" ->
  configured (client w) ->
  outcome (EdgeBuilder.save b w) = Ok (VStr "edge_id") /\
  final (EdgeBuilder.save b w) = w /\
  calls (EdgeBuilder.save b w) =
    CallAddEdge (EdgeBuilder.edge_name b) a (EdgeBuilder.descriptor b)
    :: (if nonempty (EdgeBuilder.properties b)
        then [CallSetEdgeProperties "edge_id" (EdgeBuilder.edge_name b)
                (EdgeBuilder.properties b)]
        else [])
    ++ map (CallAddDocument "edge_id") (EdgeBuilder.documents b).
Proof.
  intros Hb Ha Hcfg. rewrite (edge_save_run b a w Hb Ha Hcfg).
  split; [reflexivity|]. split; reflexivity.
Qed.

Lemma edge_save_call_order_witness :
  calls (EdgeBuilder.save sample_targeted_edge sample_world) =
    [CallAddEdge "KNOWS" "0xAbC" "friend";
     CallSetEdgeProperties "edge_id" "KNOWS"
       [mkNodeProperty "since" (VInt 2020) PT_INVALID ""];
     CallAddDocument "edge_id" "ipfs://doc"].
Proof.
  exact (proj2 (proj2 (edge_save_call_order sample_targeted_edge "0xAbC"
                         sample_world eq_refl ltac:(discriminate)
                         (conj eq_refl eq_refl)))).
Defined.

Lemma fluent_unresolved cks b :
  EdgeFluent cks b -> unresolved (EdgeBuilder.properties b).
Proof.
  induction 1 as [n d|b k v _ IH|b url _ IH|b x b' _ IH Hf|b x b' _ IH Ht].
  - constructor.
  - cbn. apply Forall_app. split; [exact IH|].
    constructor; [split; reflexivity|constructor].
  - exact IH.
  - unfold EdgeBuilder.from_node in Hf. destruct (cks x); [|discriminate].
    injection Hf as <-. exact IH.
  - unfold EdgeBuilder.to_node in Ht. destruct (cks x); [|discriminate].
    injection Ht as <-. exact IH.
Qed.

Lemma edge_save_calls_cases b w :
  calls (EdgeBuilder.save b w) = [] \/
  exists a,
    calls (EdgeBuilder.save b w) =
      CallAddEdge (EdgeBuilder.edge_name b) a (EdgeBuilder.descriptor b)
      :: (if nonempty (EdgeBuilder.properties b)
          then [CallSetEdgeProperties "edge_id" (EdgeBuilder.edge_name b)
                  (EdgeBuilder.properties b)]
          else [])
      ++ map (CallAddDocument "edge_id") (EdgeBuilder.documents b).
Proof.
  destruct (truthy (EdgeBuilder.to_node_address b)) eqn:Ht.
  - destruct (truthy_target b Ht) as (a & Hb & Ha).
    destruct (configured_dec (client w)) as [Hcfg|Hn].
    + right. exists a. rewrite (edge_save_run b a w Hb Ha Hcfg). reflexivity.
    + left. unfold EdgeBuilder.save.
      rewrite (bind_pure _ (target_set b a w Hb Ha)).
      destruct (add_edge_unconfigured (EdgeBuilder.edge_name b) a
                  (EdgeBuilder.descriptor b) w Hn) as [Hout Hcalls].
      rewrite bind_run.
      destruct (outcome (add_edge _ _ _ w)); [discriminate|].
      cbn [calls]. exact Hcalls.
  - left. unfold EdgeBuilder.save.
    rewrite (bind_raise _ (target_falsy b w Ht)). reflexivity.
Qed.

(** X2. The properties of an edge are never resolved against the registry:
    whatever builder the fluent interface produced and whatever the client,
    [EdgeBuilder.save] makes no registry read and no [add_properties] call,
    and every property it submits through [set_edge_properties] still has
    the empty [property_id] and the type [INVALID] it was accumulated
    with. *)
Theorem edge_save_submits_unresolved cks b w c :
  EdgeFluent cks b ->
  In c (calls (EdgeBuilder.save b w)) ->
  carries_unresolved c.
Proof.
  intros Hf Hin.
  destruct (edge_save_calls_cases b w) as [H0|(a & Hc)].
  - rewrite H0 in Hin. destruct Hin.
  - rewrite Hc in Hin. destruct Hin as [<-|Hin]; [exact I|].
    apply in_app_or in Hin as [Hin|Hin].
    + destruct (nonempty (EdgeBuilder.properties b)); [|destruct Hin].
      destruct Hin as [<-|[]]. exact (fluent_unresolved cks b Hf).
    + apply in_map_iff in Hin as (url & <- & _). exact I.
Qed.

Lemma edge_save_submits_unresolved_witness :
  carries_unresolved
    (CallSetEdgeProperties "edge_id" "KNOWS"
       [mkNodeProperty "since" (VInt 2020) PT_INVALID ""]).
Proof.
  apply (edge_save_submits_unresolved (fun a => Ok a) sample_targeted_edge
           sample_world).
  - apply (@fluent_to_node _ sample_edge "0xAbC"); [|reflexivity].
    apply fluent_document. apply fluent_property. apply fluent_init.
  - right. left. reflexivity.
Defined.

(** X3. The source address set by [from_node] is never read: [save],
    [accept] and [status] of the builder [from_node] returns run exactly as
    those of the builder it was called on. *)
Theorem commits_ignore_from_node cks get_edge b x b' w :
  EdgeBuilder.from_node cks b x = Ok b' ->
  EdgeBuilder.save b' w = EdgeBuilder.save b w /\
  EdgeBuilder.accept b' w = EdgeBuilder.accept b w /\
  EdgeBuilder.status get_edge b' w = EdgeBuilder.status get_edge b w.
Proof.
  unfold EdgeBuilder.from_node. destruct (cks x); intros H; [|discriminate].
  injection H as <-. split; [reflexivity|]. split; reflexivity.
Qed.

Lemma commits_ignore_from_node_witness :
  EdgeBuilder.save sample_sourced_edge sample_world
  = EdgeBuilder.save sample_targeted_edge sample_world.
Proof.
  exact (proj1 (commits_ignore_from_node (fun a => Ok a) sample_get_edge
                  sample_targeted_edge "0xFrom" sample_sourced_edge
                  sample_world eq_refl)).
Defined.

(** X4. [to_node] stores the checksummed form of its argument, and the
    commit uses that form: after [to_node(x)] on a configured client,
    [accept] creates and answers the edge towards the checksum of [x], with
    the builder's name and descriptor. *)
Theorem to_node_sets_checksummed_target cks b x c w :
  cks x = Ok c -> c <> "" -> configured (client w) ->
  exists b',
    EdgeBuilder.to_node cks b x = Ok b' /\
    EdgeBuilder.to_node_address b' = Some c /\
    EdgeBuilder.accept b' w =
      mkRun (Ok VNone) w
        [CallAddEdge (EdgeBuilder.edge_name b) c (EdgeBuilder.descriptor b);
         CallAnswerEdge c "edge_id" ACCEPTED].
Proof.
  intros Hx Hc Hcfg. unfold EdgeBuilder.to_node. rewrite Hx.
  eexists. split; [reflexivity|]. split; [reflexivity|].
  match goal with
  | |- EdgeBuilder.accept ?b' w = _ =>
      rewrite (accept_run b' c w eq_refl Hc Hcfg)
  end.
  reflexivity.
Qed.

Lemma to_node_sets_checksummed_target_witness :
  exists b',
    EdgeBuilder.to_node (fun a => Ok ("0x" ++ a)) sample_edge "abc" = Ok b' /\
    EdgeBuilder.to_node_address b' = Some "0xabc" /\
    EdgeBuilder.accept b' sample_world =
      mkRun (Ok VNone) sample_world
        [CallAddEdge "KNOWS" "0xabc" "friend";
         CallAnswerEdge "0xabc" "edge_id" ACCEPTED].
Proof.
  exact (to_node_sets_checksummed_target (fun a => Ok ("0x" ++ a)) sample_edge
           "abc" "0xabc" sample_world eq_refl ltac:(discriminate)
           (conj eq_refl eq_refl)).
Defined.

(** X5. A later [to_node] replaces an earlier one: the builder after
    [to_node(x)] then [to_node(y)] is the builder after [to_node(y)] alone,
    also when [y] is refused. *)
Theorem to_node_last_wins cks b x y b1 :
  EdgeBuilder.to_node cks b x = Ok b1 ->
  EdgeBuilder.to_node cks b1 y = EdgeBuilder.to_node cks b y.
Proof.
  unfold EdgeBuilder.to_node. destruct (cks x); intros H; [|discriminate].
  injection H as <-. destruct (cks y); reflexivity.
Qed.

Lemma to_node_last_wins_witness :
  EdgeBuilder.to_node (fun a => Ok a) sample_retargeted_edge "0xAbC"
  = EdgeBuilder.to_node (fun a => Ok a) sample_edge "0xAbC".
Proof.
  exact (to_node_last_wins (fun a => Ok a) sample_edge "0xOld" "0xAbC"
           sample_retargeted_edge eq_refl).
Defined.

(** X6. On a configured client, [save] and [accept] fail with the
    unset-target error exactly when the target address is falsy: never set,
    or the empty string. *)
Theorem unset_target_iff_falsy b w :
  configured (client w) ->
  (outcome (EdgeBuilder.save b w) = Raise unset_target <->
   truthy (EdgeBuilder.to_node_address b) = false) /\
  (outcome (EdgeBuilder.accept b w) = Raise unset_target <->
   truthy (EdgeBuilder.to_node_address b) = false).
Proof.
  intros Hcfg. split; split.
  - intros H. destruct (truthy (EdgeBuilder.to_node_address b)) eqn:Ht;
      [|reflexivity].
    destruct (truthy_target b Ht) as (a & Hb & Ha).
    rewrite (edge_save_run b a w Hb Ha Hcfg) in H. discriminate.
  - intros Ht. unfold EdgeBuilder.save.
    rewrite (bind_raise _ (target_falsy b w Ht)). reflexivity.
  - intros H. destruct (truthy (EdgeBuilder.to_node_address b)) eqn:Ht;
      [|reflexivity].
    destruct (truthy_target b Ht) as (a & Hb & Ha).
    rewrite (accept_run b a w Hb Ha Hcfg) in H. discriminate.
  - intros Ht. unfold EdgeBuilder.accept.
    rewrite (bind_raise _ (target_falsy b w Ht)). reflexivity.
Qed.

Lemma unset_target_iff_falsy_witness :
  outcome (EdgeBuilder.save sample_edge sample_world) = Raise unset_target.
Proof.
  exact (proj2 (proj1 (unset_target_iff_falsy sample_edge sample_world
                         (conj eq_refl eq_refl))) eq_refl).
Defined.

(** ** [NodeBuilder]: accumulation, repeated and interrupted commits *)

(** X7. However [property] and [document] calls are interleaved, the
    builder holds the properties in the order of the [property] calls, each
    with type [INVALID] and no id, the documents in the order of the
    [document] calls, after whatever it held before, and keeps its name. *)
Theorem fluent_accumulation ss b :
  NodeBuilder.properties (fold_left node_step ss b)
    = (NodeBuilder.properties b ++ step_properties ss)%list /\
  NodeBuilder.documents (fold_left node_step ss b)
    = (NodeBuilder.documents b ++ step_documents ss)%list /\
  NodeBuilder.graph_node_name (fold_left node_step ss b)
    = NodeBuilder.graph_node_name b.
Proof.
  revert b. induction ss as [|s ss IH]; intros b; cbn [fold_left].
  - cbn. rewrite !app_nil_r. split; [reflexivity|]. split; reflexivity.
  - destruct (IH (node_step b s)) as (Hp & Hd & Hn). rewrite Hp, Hd, Hn.
    destruct s; cbn; rewrite <- ?app_assoc;
      (split; [reflexivity|]; split; reflexivity).
Qed.





(** [save] leaves the world as the debug line left it, on every path. *)
Lemma node_save_final b w : final (NodeBuilder.save b w) = after_banner b w.
Proof.
  destruct (configured_dec (client w)) as [Hcfg|Hn].
  - destruct (node_save_prefix b w Hcfg) as [Hraise Hok].
    destruct (outcome (NodeBuilder.resolve_all (NodeBuilder.properties b)
                         (after_banner b w))) as [props|e].
    + rewrite (Hok props eq_refl). reflexivity.
    + rewrite (Hraise e eq_refl). reflexivity.
  - unfold NodeBuilder.save. rewrite bind_get_client.
    rewrite (bind_ok _ (banner_run b w)). cbn [final].
    assert (Hn1 : ~ configured (client (after_banner b w)))
      by (rewrite client_after_banner; exact Hn).
    destruct (add_node_unconfigured (NodeBuilder.graph_node_name b) _ Hn1)
      as [Hout _].
    rewrite bind_run.
    destruct (outcome (add_node _ _)) eqn:Hadd; [discriminate|].
    cbn [final]. apply add_node_keeps_world.
Qed.



Lemma resolve_all_stops ps1 p ps2 w reg e :
  node_type_registry (client w) = Some reg ->
  (forall q, In q ps1 -> is_ok (lookup_property_id (client w) (key q)) = true) ->
  lookup_property_id (client w) (key p) = Raise e ->
  NodeBuilder.resolve_all (ps1 ++ p :: ps2) w
  = mkRun (Raise e) w (resolution_calls (client w) (ps1 ++ [p])).
Proof.
  intros Hreg Hok Hp. unfold lookup_property_id in Hok, Hp.
  rewrite Hreg in Hok, Hp.
  induction ps1 as [|q ps1 IH]; cbn [app NodeBuilder.resolve_all].
  - assert (Hrun : NodeBuilder.resolve p w =
              mkRun (Raise e) w [CallPropertyId (node_type_id (client w)) (key p)]).
    { rewrite resolve_run, Hreg, Hp. reflexivity. }
    rewrite (bind_raise _ Hrun). reflexivity.
  - pose proof (Hok q (or_introl eq_refl)) as Hq.
    destruct (reg_contract_propertyId reg (node_type_id (client w)) (key q))
      as [pid|] eqn:Hpid; [|discriminate].
    assert (Hrun : NodeBuilder.resolve q w =
              mkRun (Ok (set_property_id q pid)) w
                [CallPropertyId (node_type_id (client w)) (key q)]).
    { rewrite resolve_run, Hreg, Hpid. reflexivity. }
    rewrite (bind_ok _ Hrun).
    rewrite (bind_raise _ (IH (fun q' Hq' => Hok q' (or_intror Hq')))).
    reflexivity.
Qed.

(** X9. When the registry read fails for an accumulated property, all
    earlier ones having resolved, [save] raises that very exception, and
    what it has done by then is the node creation and the registry reads up
    to and including the failing one: the node is not rolled back, later
    keys are not read, nothing is submitted. *)
Theorem save_stops_at_first_failure b w ps1 p ps2 e :
  configured (client w) ->
  NodeBuilder.properties b = (ps1 ++ p :: ps2)%list ->
  (forall q, In q ps1 -> is_ok (lookup_property_id (client w) (key q)) = true) ->
  lookup_property_id (client w) (key p) = Raise e ->
  outcome (NodeBuilder.save b w) = Raise e /\
  calls (NodeBuilder.save b w) =
    CallAddNode (NodeBuilder.graph_node_name b)
    :: resolution_calls (client w) (ps1 ++ [p]).
Proof.
  intros Hcfg Hps Hok Hp.
  destruct (node_save_prefix b w Hcfg) as [Hraise _].
  assert (Hcl : client (after_banner b w) = client w)
    by apply client_after_banner.
  destruct (node_type_registry (client w)) as [reg|] eqn:Hreg;
    [|destruct Hcfg as [_ Hr]; rewrite Hreg in Hr; discriminate].
  assert (Hstop := resolve_all_stops ps1 p ps2 (after_banner b w) reg e).
  rewrite Hcl in Hstop. specialize (Hstop Hreg Hok Hp).
  rewrite Hps in Hraise. rewrite Hstop in Hraise.
  rewrite (Hraise e eq_refl). split; reflexivity.
Qed.

Lemma save_stops_at_first_failure_witness :
  outcome (NodeBuilder.save sample_node picky_world)
    = Raise (CallError "revert") /\
  calls (NodeBuilder.save sample_node picky_world) =
    [CallAddNode "Person"; CallPropertyId "" "name"; CallPropertyId "" "age"].
Proof.
  apply (save_stops_at_first_failure sample_node picky_world
           [mkNodeProperty "name" (VStr "Ada") PT_INVALID ""]
           (mkNodeProperty "age" (VInt 36) PT_INVALID "") []
           (CallError "revert") (conj eq_refl eq_refl) eq_refl).
  - intros q [<-|[]]. reflexivity.
  - reflexivity.
Defined.

(** X10. [save] never changes the session, and what it prints is the debug
    line alone: one line naming the node type when [debug] is set, nothing
    otherwise, on every path, failures included. *)
Theorem save_prints_only_debug_line b w :
  client (final (NodeBuilder.save b w)) = client w /\
  stdout (final (NodeBuilder.save b w)) =
    if debug (client w)
    then (stdout w ++ [("Saving GraphNode with NodeType "
                        ++ NodeBuilder.graph_node_name b)%string])%list
    else stdout w.
Proof.
  rewrite node_save_final. unfold after_banner.
  destruct (debug (client w)); split; reflexivity.
Qed.

Lemma add_node_binding_error n w :
  ~ configured (client w) ->
  add_node n w = mkRun (Raise (binding_error (client w))) w [].
Proof.
  intros Hn. unfold add_node, binding_error.
  rewrite bind_run, check_contract_run.
  destruct (bound (contract (client w))) eqn:Hc; [|reflexivity].
  cbn [outcome final calls]. rewrite bind_run, check_registry_run.
  destruct (bound (node_type_registry (client w))) eqn:Hr; [|reflexivity].
  exfalso. apply Hn. split; assumption.
Qed.

Lemma add_edge_binding_error n a d w :
  ~ configured (client w) ->
  add_edge n a d w = mkRun (Raise (binding_error (client w))) w [].
Proof.
  intros Hn. unfold add_edge, binding_error.
  rewrite bind_run, check_contract_run.
  destruct (bound (contract (client w))) eqn:Hc; [|reflexivity].
  cbn [outcome final calls]. rewrite bind_run, check_registry_run.
  destruct (bound (node_type_registry (client w))) eqn:Hr; [|reflexivity].
  exfalso. apply Hn. split; assumption.
Qed.

(** X11. On a client that lacks the contract or the registry, every commit
    stops at the first binding check that fails, before any call: the error
    is "Contract not initialized" when the contract is unset, also when the
    registry is unset too, and "Registry not initialized" otherwise.  This
    holds for [add_node], for [NodeBuilder.save], and for [EdgeBuilder.save]
    and [accept] once the target is set. *)
Theorem unconfigured_commit_errors w :
  ~ configured (client w) ->
  (forall n, add_node n w = mkRun (Raise (binding_error (client w))) w []) /\
  (forall b,
     outcome (NodeBuilder.save b w) = Raise (binding_error (client w)) /\
     calls (NodeBuilder.save b w) = []) /\
  (forall b a, EdgeBuilder.to_node_address b = Some a -> a <> "" ->
     EdgeBuilder.save b w = mkRun (Raise (binding_error (client w))) w [] /\
     EdgeBuilder.accept b w = mkRun (Raise (binding_error (client w))) w []).
Proof.
  intros Hn. split; [|split].
  - intros n. apply add_node_binding_error. exact Hn.
  - intros b. unfold NodeBuilder.save. rewrite bind_get_client.
    rewrite (bind_ok _ (banner_run b w)).
    assert (Hn1 : ~ configured (client (after_banner b w)))
      by (rewrite client_after_banner; exact Hn).
    rewrite (bind_raise _ (add_node_binding_error _ _ Hn1)).
    rewrite client_after_banner. split; reflexivity.
  - intros b a Hb Ha. unfold EdgeBuilder.save, EdgeBuilder.accept.
    rewrite !(bind_pure _ (target_set b a w Hb Ha)).
    rewrite !(bind_raise _ (add_edge_binding_error _ _ _ _ Hn)).
    split; reflexivity.
Qed.

Lemma unconfigured_commit_errors_witness :
  outcome (NodeBuilder.save sample_node registryless_world)
    = Raise (ValueError "Registry not initialized") /\
  outcome (NodeBuilder.save sample_node walletless_world)
    = Raise (ValueError "Contract not initialized").
Proof.
  split.
  - refine (proj1 (proj1 (proj2 (unconfigured_commit_errors registryless_world _))
                     sample_node)).
    intros [_ H]. discriminate.
  - refine (proj1 (proj1 (proj2 (unconfigured_commit_errors walletless_world _))
                     sample_node)).
    intros [H _]. discriminate.
Defined.

(** ** [EdgeBuilder.status]: what it adds to [get_edge] *)

Lemma status_of_pure r w :
  calls (EdgeBuilder.status_of r w) = [] /\
  final (EdgeBuilder.status_of r w) = w.
Proof.
  destruct r as [[|x rec]|]; try (split; reflexivity).
  unfold EdgeBuilder.status_of. cbn [nonempty].
  destruct (nth_error (x :: rec) 3); split; reflexivity.
Qed.

(** X12. With the target set, [status] is one [get_edge] and nothing more:
    its calls and its effect on the world are those of [get_edge], and an
    exception of [get_edge] comes out unchanged. *)
Theorem status_adds_no_call get_edge b a w :
  EdgeBuilder.to_node_address b = Some a -> a <> "" ->
  let g := get_edge (EdgeBuilder.edge_name b) a (EdgeBuilder.descriptor b) w in
  calls (EdgeBuilder.status get_edge b w) = calls g /\
  final (EdgeBuilder.status get_edge b w) = final g /\
  (forall e, outcome g = Raise e ->
     outcome (EdgeBuilder.status get_edge b w) = Raise e).
Proof.
  intros Hb Ha g. unfold EdgeBuilder.status.
  rewrite (bind_pure _ (target_set b a w Hb Ha)). rewrite bind_run. fold g.
  destruct (outcome g) as [r|e].
  - destruct (status_of_pure r (final g)) as [Hc Hf].
    cbn [calls final outcome]. rewrite Hc, Hf, app_nil_r.
    split; [reflexivity|]. split; [reflexivity|]. intros e H. discriminate.
  - cbn [calls final outcome]. split; [reflexivity|]. split; [reflexivity|].
    intros e' H. injection H as <-. reflexivity.
Qed.

Lemma status_adds_no_call_witness :
  calls (EdgeBuilder.status sample_get_edge sample_targeted_edge sample_world)
  = [CallGetEdge "KNOWS" "0xAbC" "friend"].
Proof.
  exact (proj1 (status_adds_no_call sample_get_edge sample_targeted_edge
                  "0xAbC" sample_world eq_refl ltac:(discriminate))).
Defined.

(** X13. With the target set, when [get_edge] returns a tuple: an empty
    tuple is taken for no record and gives [INVALID]; a non-empty tuple of
    fewer than four components makes [status] raise [IndexError]. *)
Theorem status_of_short_record get_edge b a w rec :
  EdgeBuilder.to_node_address b = Some a -> a <> "" ->
  outcome (get_edge (EdgeBuilder.edge_name b) a (EdgeBuilder.descriptor b) w)
    = Ok (Some rec) ->
  (rec = [] ->
   outcome (EdgeBuilder.status get_edge b w) = Ok (VStatus INVALID)) /\
  (rec <> [] -> (List.length rec < 4)%nat ->
   outcome (EdgeBuilder.status get_edge b w) = Raise IndexError).
Proof.
  intros Hb Ha Hget.
  rewrite (status_outcome get_edge b a w (Some rec) Hb Ha Hget).
  rewrite status_of_outcome. split.
  - intros ->. reflexivity.
  - intros Hne Hlen. destruct rec as [|x rec]; [contradiction|].
    assert (Hnth : nth_error (x :: rec) 3 = None)
      by (apply nth_error_None; lia).
    rewrite Hnth. reflexivity.
Qed.

Lemma status_of_short_record_witness :
  outcome (EdgeBuilder.status
             (fun n t d => ret (Some [VStr "0xNode"; VStr t; VStr d]))
             sample_targeted_edge sample_world)
  = Raise IndexError.
Proof.
  refine (proj2 (status_of_short_record
                   (fun n t d => ret (Some [VStr "0xNode"; VStr t; VStr d]))
                   sample_targeted_edge "0xAbC" sample_world
                   [VStr "0xNode"; VStr "0xAbC"; VStr "friend"]
                   eq_refl ltac:(discriminate) eq_refl) _ _).
  - discriminate.
  - cbn. lia.
Defined.

(** ** [NodeTypeRegistry]: the two type reads *)

(** X14. [get_edge_by_id] and [get_node_type] return the first two
    components of the contract's answer, whatever follows them; they raise
    [IndexError] on an answer of fewer than two components and pass an
    exception of the contract on unchanged. *)
Theorem registry_reads_take_two_components getE getN id :
  (forall e, getE id = Raise e -> get_edge_by_id getE id = Raise e) /\
  (forall data, getE id = Ok data ->
     get_edge_by_id getE id =
     match data with
     | d0 :: d1 :: _ => Ok {| edge_id := d0; edge_exists := d1 |}
     | _ => Raise IndexError
     end) /\
  (forall e, getN id = Raise e -> get_node_type getN id = Raise e) /\
  (forall data, getN id = Ok data ->
     get_node_type getN id =
     match data with
     | d0 :: d1 :: _ => Ok {| info_node_type_id := d0; type_exists := d1 |}
     | _ => Raise IndexError
     end).
Proof.
  unfold get_edge_by_id, get_node_type.
  split; [|split; [|split]].
  - intros e H. rewrite H. reflexivity.
  - intros data H. rewrite H. destruct data as [|d0 [|d1 rest]]; reflexivity.
  - intros e H. rewrite H. reflexivity.
  - intros data H. rewrite H. destruct data as [|d0 [|d1 rest]]; reflexivity.
Qed.

Lemma registry_reads_take_two_components_witness :
  get_edge_by_id (fun _ => Ok [VStr "KNOWS"; VBool true; VInt 7]) "0x01"
    = Ok {| edge_id := VStr "KNOWS"; edge_exists := VBool true |} /\
  get_node_type (fun _ => Ok [VStr "Person"]) "0x01" = Raise IndexError.
Proof.
  destruct (registry_reads_take_two_components
              (fun _ => Ok [VStr "KNOWS"; VBool true; VInt 7])
              (fun _ => Ok [VStr "Person"]) "0x01") as (_ & HE & _ & HN).
  split; [exact (HE _ eq_refl)|exact (HN _ eq_refl)].
Defined.

(** ** [GraphNode.deploy] *)

(** X15. [deploy] depends on the wallet alone: with an account it returns
    ["deployed_address"] for every node type id, with or without a bound
    contract or registry; without one it raises "Wallet not initialized".
    Either way it makes no call and leaves the session as it was. *)
Theorem deploy_needs_wallet_only ntid w :
  deploy ntid w =
  if bound (account (client w))
  then mkRun (Ok "deployed_address") w []
  else mkRun (Raise (ValueError "Wallet not initialized")) w [].
Proof.
  unfold deploy, _check_wallet. rewrite bind_run, bind_get_client.
  destruct (bound (account (client w))); reflexivity.
Qed.

(** ** Construction *)

Lemma obind_ok {A B} (o : Outcome A) (f : A -> Outcome B) b :
  obind o f = Ok b -> exists a, o = Ok a /\ f a = Ok b.
Proof.
  destruct o as [a|e]; cbn; intros H; [|discriminate].
  exists a. split; [reflexivity|exact H].
Qed.

Lemma check_wallet_ok w u :
  outcome (_check_wallet w) = Ok u -> bound (account (client w)) = true.
Proof.
  unfold _check_wallet. rewrite bind_get_client.
  destruct (bound (account (client w))); [reflexivity|discriminate].
Qed.

Lemma registry_init_inversion pf raddr dbg rc :
  NodeTypeRegistry_init pf raddr dbg = Ok rc ->
  reg_address (registry rc) = raddr /\
  reg_debug (registry rc) = dbg /\
  registry_provider_url rc =
    match getenv pf "RPC_URL" with
    | Some u => u
    | None => "http://localhost:8545"
    end /\
  exists addr, to_checksum_address pf raddr = Ok addr /\
    reg_contract_propertyId (registry rc) = chain_propertyId pf addr.
Proof.
  unfold NodeTypeRegistry_init. cbv zeta. intros H.
  apply obind_ok in H as (j & _ & H).
  apply obind_ok in H as (addr & Haddr & H).
  apply obind_ok in H as (abi & _ & H).
  injection H as <-. cbn.
  split; [reflexivity|]. split; [reflexivity|]. split; [reflexivity|].
  exists addr. split; [exact Haddr|reflexivity].
Qed.

(** What a successful construction has done, in terms of the key and the
    two addresses it settled on. *)
Lemma init_inversion pf cfg c :
  GraphNode_init pf cfg = Ok c ->
  let key := py_or (GraphNodeConfig.private_key cfg) (getenv pf "PRIVATE_KEY") in
  let addr := py_or (GraphNodeConfig.node_address cfg) (getenv pf "NODE_ADDRESS") in
  let raddr := py_or (GraphNodeConfig.node_type_registry_address cfg)
                 (getenv pf "NODE_TYPE_REGISTRY_ADDRESS") in
  node_id (session c) = "" /\
  node_type_id (session c) = "" /\
  graph_node_name (session c) = "" /\
  debug (session c) = GraphNodeConfig.debug cfg /\
  bound (account (session c)) = truthy key /\
  bound (contract (session c)) = truthy addr /\
  bound (node_type_registry (session c)) = truthy raddr /\
  (truthy addr = true -> truthy key = true) /\
  node_address_attr c = (if truthy addr then addr else None) /\
  provider_url c
    = the_string (py_or (GraphNodeConfig.connection cfg) (Some "testnet")) /\
  registry_url c =
    (if truthy raddr
     then Some match getenv pf "RPC_URL" with
               | Some u => u
               | None => "http://localhost:8545"
               end
     else None).
Proof.
  intros H key addr raddr. unfold GraphNode_init in H. cbv zeta in H.
  fold key addr raddr in H.
  apply obind_ok in H as (acct & H1 & H).
  apply obind_ok in H as (contr & H2 & H).
  apply obind_ok in H as (reg & H3 & H).
  injection H as <-. cbn [session node_id node_type_id graph_node_name debug
                          account contract node_type_registry
                          node_address_attr provider_url registry_url].
  assert (Hacct : bound acct = truthy key).
  { destruct (truthy key).
    - apply obind_ok in H1 as (a & _ & H1). injection H1 as <-. reflexivity.
    - injection H1 as <-. reflexivity. }
  assert (Hcontr : bound (fst contr) = truthy addr /\
                   snd contr = (if truthy addr then addr else None) /\
                   (truthy addr = true -> bound acct = true)).
  { destruct (truthy addr).
    - apply obind_ok in H2 as (u & Hw & H2).
      apply obind_ok in H2 as (j & _ & H2).
      apply obind_ok in H2 as (ad & _ & H2).
      apply obind_ok in H2 as (abi & _ & H2).
      injection H2 as <-. apply check_wallet_ok in Hw.
      split; [reflexivity|]. split; [reflexivity|]. intros _. exact Hw.
    - injection H2 as <-. split; [reflexivity|]. split; [reflexivity|].
      intros Hf. discriminate. }
  assert (Hreg : bound (option_map registry reg) = truthy raddr /\
                 option_map registry_provider_url reg =
                 (if truthy raddr
                  then Some match getenv pf "RPC_URL" with
                            | Some u => u
                            | None => "http://localhost:8545"
                            end
                  else None)).
  { destruct (truthy raddr).
    - apply obind_ok in H3 as (rc & Hrc & H3). injection H3 as <-.
      apply registry_init_inversion in Hrc as (_ & _ & Hurl & _).
      cbn. rewrite Hurl. split; reflexivity.
    - injection H3 as <-. split; reflexivity. }
  destruct Hcontr as (Hc1 & Hc2 & Hc3). destruct Hreg as [Hr1 Hr2].
  repeat match goal with |- _ /\ _ => split end;
    try reflexivity; try assumption.
  intros Ha. rewrite <- Hacct. exact (Hc3 Ha).
Qed.

Lemma node_save_binding_error b w :
  ~ configured (client w) ->
  outcome (NodeBuilder.save b w) = Raise (binding_error (client w)) /\
  calls (NodeBuilder.save b w) = [].
Proof.
  intros Hn. unfold NodeBuilder.save. rewrite bind_get_client.
  rewrite (bind_ok _ (banner_run b w)).
  assert (Hn1 : ~ configured (client (after_banner b w)))
    by (rewrite client_after_banner; exact Hn).
  rewrite (bind_raise _ (add_node_binding_error _ _ Hn1)).
  rewrite client_after_banner. split; reflexivity.
Qed.

(** X16. Construction with a node address, from the configuration or from
    the environment, and no private key in either fails with "Wallet not
    initialized", before any file is opened. *)
Theorem init_requires_wallet pf cfg :
  truthy (py_or (GraphNodeConfig.node_address cfg) (getenv pf "NODE_ADDRESS"))
    = true ->
  truthy (py_or (GraphNodeConfig.private_key cfg) (getenv pf "PRIVATE_KEY"))
    = false ->
  GraphNode_init pf cfg = Raise (ValueError "Wallet not initialized").
Proof.
  intros Haddr Hkey. unfold GraphNode_init. cbv zeta.
  rewrite Hkey. cbn [obind]. rewrite Haddr. reflexivity.
Qed.

Lemma init_requires_wallet_witness :
  GraphNode_init sample_platform keyless_config
  = Raise (ValueError "Wallet not initialized").
Proof.
  exact (init_requires_wallet sample_platform keyless_config eq_refl eq_refl).
Defined.

(** X17. A constructed client starts with empty [node_id], [node_type_id]
    and [graph_node_name] and the configured [debug] flag.  Its wallet, its
    contract and its registry are bound exactly when a non-empty private
    key, node address and registry address were found, in the configuration
    or else in the environment; a bound contract implies a bound wallet. *)
Theorem constructed_session pf cfg c :
  GraphNode_init pf cfg = Ok c ->
  node_id (session c) = "" /\
  node_type_id (session c) = "" /\
  graph_node_name (session c) = "" /\
  debug (session c) = GraphNodeConfig.debug cfg /\
  bound (account (session c)) =
    truthy (py_or (GraphNodeConfig.private_key cfg) (getenv pf "PRIVATE_KEY")) /\
  bound (contract (session c)) =
    truthy (py_or (GraphNodeConfig.node_address cfg) (getenv pf "NODE_ADDRESS")) /\
  bound (node_type_registry (session c)) =
    truthy (py_or (GraphNodeConfig.node_type_registry_address cfg)
              (getenv pf "NODE_TYPE_REGISTRY_ADDRESS")) /\
  (bound (contract (session c)) = true -> bound (account (session c)) = true).
Proof.
  intros H.
  destruct (init_inversion pf cfg c H)
    as (H1 & H2 & H3 & H4 & H5 & H6 & H7 & H8 & _).
  repeat match goal with |- _ /\ _ => split end; try assumption.
  rewrite H5, H6. exact H8.
Qed.

Lemma constructed_session_witness :
  node_id (session sample_constructed) = "" /\
  bound (contract (session sample_constructed)) = true /\
  bound (account (session default_constructed)) = false.
Proof.
  destruct (constructed_session sample_platform sample_config
              sample_constructed eq_refl) as (Hid & _ & _ & _ & _ & Hc & _).
  destruct (constructed_session sample_platform GraphNodeConfig.default
              default_constructed eq_refl) as (_ & _ & _ & _ & Ha & _).
  split; [exact Hid|]. split; [exact Hc|exact Ha].
Defined.

(** X18. The client's provider is given the configured connection string
    itself, or "testnet" when it is missing or empty.  The registry client
    makes a provider of its own from the environment variable [RPC_URL], or
    "http://localhost:8545" without it: the configured connection does not
    reach it. *)
Theorem constructed_provider_urls pf cfg c :
  GraphNode_init pf cfg = Ok c ->
  provider_url c
    = the_string (py_or (GraphNodeConfig.connection cfg) (Some "testnet")) /\
  registry_url c =
    (if bound (node_type_registry (session c))
     then Some match getenv pf "RPC_URL" with
               | Some u => u
               | None => "http://localhost:8545"
               end
     else None).
Proof.
  intros H.
  destruct (init_inversion pf cfg c H)
    as (_ & _ & _ & _ & _ & _ & H7 & _ & _ & H10 & H11).
  rewrite H7. split; assumption.
Qed.

Lemma constructed_provider_urls_witness :
  provider_url sample_constructed = "mainnet" /\
  registry_url sample_constructed = Some "http://localhost:8545".
Proof.
  exact (constructed_provider_urls sample_platform sample_config
           sample_constructed eq_refl).
Defined.

(** X19. Explicit configuration overrides the environment: when the
    configuration carries a non-empty private key, node address and
    registry address, construction does not depend on the environment,
    except for [RPC_URL]. *)
Theorem config_overrides_environment pf env cfg :
  env "RPC_URL" = getenv pf "RPC_URL" ->
  truthy (GraphNodeConfig.private_key cfg) = true ->
  truthy (GraphNodeConfig.node_address cfg) = true ->
  truthy (GraphNodeConfig.node_type_registry_address cfg) = true ->
  GraphNode_init (with_getenv pf env) cfg = GraphNode_init pf cfg.
Proof.
  intros Henv Hk Ha Hr. unfold GraphNode_init, py_or.
  rewrite Hk, Ha, Hr. cbv zeta. unfold NodeTypeRegistry_init.
  cbn [with_getenv getenv account_from_key load_json json_abi
       to_checksum_address chain_propertyId].
  rewrite Henv. reflexivity.
Qed.

Lemma config_overrides_environment_witness :
  GraphNode_init
    (with_getenv sample_platform
       (fun k => if String.eqb k "RPC_URL" then None else Some "0xFromEnv"))
    sample_config
  = GraphNode_init sample_platform sample_config.
Proof.
  exact (config_overrides_environment sample_platform
           (fun k => if String.eqb k "RPC_URL" then None else Some "0xFromEnv")
           sample_config eq_refl eq_refl eq_refl eq_refl).
Defined.

(** X20. A client constructed without a node address, in the configuration
    and in the environment, cannot commit: on it [NodeBuilder.save] fails
    with "Contract not initialized" before any call, whatever else is
    bound. *)
Theorem addressless_client_cannot_save pf cfg c b out :
  GraphNode_init pf cfg = Ok c ->
  truthy (py_or (GraphNodeConfig.node_address cfg) (getenv pf "NODE_ADDRESS"))
    = false ->
  outcome (NodeBuilder.save b (mkWorld (session c) out))
    = Raise (ValueError "Contract not initialized") /\
  calls (NodeBuilder.save b (mkWorld (session c) out)) = [].
Proof.
  intros H Haddr.
  destruct (init_inversion pf cfg c H) as (_ & _ & _ & _ & _ & H6 & _).
  rewrite Haddr in H6.
  assert (Hn : ~ configured (client (mkWorld (session c) out))).
  { intros [Hc _]. cbn in Hc. rewrite H6 in Hc. discriminate. }
  destruct (node_save_binding_error b _ Hn) as [Hout Hcalls].
  rewrite Hout, Hcalls. unfold binding_error. cbn [client]. rewrite H6.
  split; reflexivity.
Qed.

Lemma addressless_client_cannot_save_witness :
  outcome (NodeBuilder.save sample_node (mkWorld (session default_constructed) []))
  = Raise (ValueError "Contract not initialized").
Proof.
  exact (proj1 (addressless_client_cannot_save sample_platform
                  GraphNodeConfig.default default_constructed sample_node []
                  eq_refl eq_refl)).
Defined.
